(** * PXT Phoenix (Pyodide edition): the browser glue

    A shallow embedding of the two front ends of the dashboard,
    [app.js] and the older Pyodide glue script, together with the
    Python snippets they hand to the in-browser interpreter.

    - JavaScript strings are sequences of UTF-16 code units ([list N]).
    - JSON data, and the Python data it converts to, is the type [value];
      objects and dicts are association lists in insertion order.
    - Everything the page cannot decide by itself (the CDN, the two
      [fetch] calls, the Python interpreter, the wall clock) is a field
      of the record [Env].
    - A [try]/[catch] or a rejected promise is a value of [exn + A].
    - The engine, engine_pyodide.py, is not among the sources: the
      interpreter that runs it is a field of [Env]. *)

From Stdlib Require Import ZArith NArith List String Ascii Bool Lia DecimalString.
From stdpp Require Import base option list gmap strings.
Import ListNotations.

Local Open Scope N_scope.

(** ** JavaScript strings *)

Abbreviation jsstring := (list N) (only parsing).

(** A source literal, as code units (the literals of the sources are ASCII
    except for the check mark, which is written as a code unit). *)
Definition js (s : string) : jsstring :=
  map N_of_ascii (list_ascii_of_string s).

(** ECMAScript [WhiteSpace] and [LineTerminator] code points: what
    [String.prototype.trim] strips. *)
Definition is_white_space (c : N) : bool :=
  existsb (N.eqb c)
    [9; 10; 11; 12; 13; 32; 160; 5760;
     8192; 8193; 8194; 8195; 8196; 8197; 8198; 8199; 8200; 8201; 8202;
     8232; 8233; 8239; 8287; 12288; 65279].

Fixpoint trim_start (s : jsstring) : jsstring :=
  match s with
  | c :: s' => if is_white_space c then trim_start s' else s
  | [] => []
  end.

Definition trim_end (s : jsstring) : jsstring := rev (trim_start (rev s)).

Definition trim (s : jsstring) : jsstring := trim_end (trim_start s).

(** [a || b] on strings: the empty string is the only falsy string. *)
Definition str_or (a b : jsstring) : jsstring :=
  match a with [] => b | _ => a end.

(** ** The date pattern of [getTargetDateISO]

    [/^(\d{2})\/(\d{2})\/(\d{4})$/]: anchored at both ends, every
    quantifier of fixed width, so matching is a single left-to-right pass. *)

(** [\d] (no [u] or [v] flag needed: it is [0-9] in every mode). *)
Definition is_digit (c : N) : bool := (48 <=? c) && (c <=? 57).

(** [(\d{n})]: exactly [n] digits; the captured group and the rest. *)
Fixpoint digits (n : nat) (s : jsstring) : option (jsstring * jsstring) :=
  match n with
  | O => Some ([], s)
  | S n' =>
      match s with
      | c :: s' =>
          if is_digit c then
            match digits n' s' with
            | Some (g, r) => Some (c :: g, r)
            | None => None
            end
          else None
      | [] => None
      end
  end.

(** A literal character of the pattern. *)
Definition lit (c : N) (s : jsstring) : option jsstring :=
  match s with
  | c' :: s' => if c =? c' then Some s' else None
  | [] => None
  end.

Definition slash : N := 47.
Definition hyphen : N := 45.

(** [raw.match(...)]: the three groups [dd], [mm], [yyyy], or [null]. *)
Definition match_date (raw : jsstring) : option (jsstring * jsstring * jsstring) :=
  match digits 2 raw with
  | None => None
  | Some (dd, s1) =>
  match lit slash s1 with
  | None => None
  | Some s2 =>
  match digits 2 s2 with
  | None => None
  | Some (mm, s3) =>
  match lit slash s3 with
  | None => None
  | Some s4 =>
  match digits 4 s4 with
  | None => None
  | Some (yyyy, s5) =>
      match s5 with                       (* [$] *)
      | [] => Some (dd, mm, yyyy)
      | _ :: _ => None
      end
  end end end end end.

(** [dateEl] is [None] when the page has no [#targetDate] element
    ([dateEl?.value] is then [undefined]); otherwise it holds the value
    of the input. *)
Definition getTargetDateISO (dateEl : option jsstring) : option jsstring :=
  let raw := trim (str_or (default [] dateEl) []) in
  match match_date raw with
  | None => None
  | Some (dd, mm, yyyy) => Some (yyyy ++ [hyphen] ++ mm ++ [hyphen] ++ dd)
  end.

(** [const target_date_py = getTargetDateISO() || "";] in [app.js]. *)
Definition target_date_py (dateEl : option jsstring) : jsstring :=
  match getTargetDateISO dateEl with
  | Some iso => str_or iso []
  | None => []
  end.

(** [document.getElementById("targetDate").value || ""] in the glue script. *)
Definition glue_targetDate (value : jsstring) : jsstring := str_or value [].

(** The shape DD/MM/YYYY, spelled out character by character. *)
Definition ddmmyyyy (s iso : jsstring) : Prop :=
  ∃ d1 d2 m1 m2 y1 y2 y3 y4 : N,
    Forall (λ c, is_digit c = true) [d1; d2; m1; m2; y1; y2; y3; y4] ∧
    s = [d1; d2; slash; m1; m2; slash; y1; y2; y3; y4] ∧
    iso = [y1; y2; y3; y4; hyphen; m1; m2; hyphen; d1; d2].

(** The text of the input is a date of the shape DD/MM/YYYY with nothing
    but white space before and after it. *)
Definition padded_date (value iso : jsstring) : Prop :=
  ∃ before core after : jsstring,
    value = before ++ core ++ after ∧
    Forall (λ c, is_white_space c = true) before ∧
    Forall (λ c, is_white_space c = true) after ∧
    ddmmyyyy core iso.

(** ** UTF-8, as [TextEncoder.encode] produces it *)

Definition is_high_surrogate (c : N) : bool := (55296 <=? c) && (c <=? 56319).
Definition is_low_surrogate (c : N) : bool := (56320 <=? c) && (c <=? 57343).

Definition utf8_of_code_point (c : N) : list N :=
  if c <? 128 then [c]
  else if c <? 2048 then [192 + c / 64; 128 + c mod 64]
  else if c <? 65536 then [224 + c / 4096; 128 + (c / 64) mod 64; 128 + c mod 64]
  else [240 + c / 262144; 128 + (c / 4096) mod 64; 128 + (c / 64) mod 64; 128 + c mod 64].

(** A lone surrogate is encoded as U+FFFD. *)
Fixpoint utf8_encode (s : jsstring) : list N :=
  match s with
  | [] => []
  | c :: s' =>
      if is_high_surrogate c then
        match s' with
        | lo :: s'' =>
            if is_low_surrogate lo
            then utf8_of_code_point (65536 + (c - 55296) * 1024 + (lo - 56320))
                   ++ utf8_encode s''
            else utf8_of_code_point 65533 ++ utf8_encode s'
        | [] => utf8_of_code_point 65533
        end
      else if is_low_surrogate c then utf8_of_code_point 65533 ++ utf8_encode s'
      else utf8_of_code_point c ++ utf8_encode s'
  end.

(** ** JSON data and the Python data it converts to *)

(** [VNull] is JavaScript [null] and Python [None]; [VBytes] is a
    [Uint8Array] and the Python buffer [toPy] turns it into; [VList] is an
    array or a Python list; [VDict] an object or a dict, in insertion
    order.  Numbers are the integers (the counts of the report); the
    integer-keys-first enumeration order of JavaScript objects is not
    modelled.  [undefined] is [None] of [option value]. *)
#[warnings="-register-all"]
Inductive value : Type :=
| VNull
| VBool (b : bool)
| VNum (n : Z)
| VStr (s : jsstring)
| VBytes (b : list N)
| VList (l : list value)
| VDict (d : list (jsstring * value)).

(** An [Error] object, a rejected promise, or a Python exception as the
    [PythonError] that [runPythonAsync] rejects with. *)
Record exn : Type := Exn { exn_name : jsstring; exn_message : jsstring }.

Definition TypeError (msg : string) : exn := Exn (js "TypeError") (js msg).
Definition PythonError (msg : string) : exn := Exn (js "PythonError") (js msg).

(** [Error.prototype.toString]. *)
Definition exn_to_string (e : exn) : jsstring :=
  match exn_name e, exn_message e with
  | [], m => m
  | n, [] => n
  | n, m => n ++ js ": " ++ m
  end.

(** [e?.message || e], interpolated into a template. *)
Definition exn_text (e : exn) : jsstring :=
  match exn_message e with
  | [] => exn_to_string e
  | m => m
  end.

Definition decimal (z : Z) : jsstring := js (NilEmpty.string_of_int (Z.to_int z)).

(** Association lists as dicts and objects. *)
Fixpoint dict_get (d : list (jsstring * value)) (k : jsstring) : option value :=
  match d with
  | [] => None
  | (k', v) :: d' => if decide (k = k') then Some v else dict_get d' k
  end.

(** [d[k] = v]: an existing key keeps its position. *)
Fixpoint dict_set (d : list (jsstring * value)) (k : jsstring) (v : value)
  : list (jsstring * value) :=
  match d with
  | [] => [(k, v)]
  | (k', v') :: d' =>
      if decide (k = k') then (k, v) :: d' else (k', v') :: dict_set d' k v
  end.

Definition dict_keys (d : list (jsstring * value)) : list jsstring := map fst d.

(** JavaScript truthiness. *)
Definition truthy (v : value) : bool :=
  match v with
  | VNull => false
  | VBool b => b
  | VNum n => negb (n =? 0)%Z
  | VStr s => match s with [] => false | _ => true end
  | VBytes _ | VList _ | VDict _ => true
  end.

(** [x || d] where [x] may be [undefined]. *)
Definition js_or (x : option value) (d : value) : value :=
  match x with
  | Some v => if truthy v then v else d
  | None => d
  end.

(** The error of reading [null.k], with the message V8 gives it. *)
Definition null_read (k : string) : exn :=
  TypeError ("Cannot read properties of null (reading '" ++ k ++ "')").

(** [v.k] for a property name that no built-in prototype defines:
    [null.k] throws, an object answers with its own property, anything
    else answers [undefined]. *)
Definition get_prop (v : value) (k : string) : exn + option value :=
  match v with
  | VNull => inl (null_read k)
  | VDict d => inr (dict_get d (js k))
  | _ => inr None
  end.

Fixpoint join_with (sep : jsstring) (l : list jsstring) : jsstring :=
  match l with
  | [] => []
  | [x] => x
  | x :: l' => x ++ sep ++ join_with sep l'
  end.

(** JavaScript [ToString], as a template literal applies it. *)
Fixpoint to_string (v : value) : jsstring :=
  match v with
  | VNull => js "null"
  | VBool true => js "true"
  | VBool false => js "false"
  | VNum n => decimal n
  | VStr s => s
  | VBytes b => join_with (js ",") (map (λ x, decimal (Z.of_N x)) b)
  | VList l =>
      join_with (js ",")
        (map (λ x, match x with VNull => [] | _ => to_string x end) l)
  | VDict _ => js "[object Object]"
  end.

(** [a + b]: numeric on numbers, booleans and [null]; concatenation as
    soon as one side is a string or an object. *)
Definition to_number (v : value) : option Z :=
  match v with
  | VNull => Some 0%Z
  | VBool b => Some (if b then 1 else 0)%Z
  | VNum n => Some n
  | _ => None
  end.

Definition js_add (a b : value) : value :=
  match to_number a, to_number b with
  | Some x, Some y => VNum (x + y)
  | _, _ => VStr (to_string a ++ to_string b)
  end.

(** [json.dumps] raises on a value that holds bytes; every other value of
    this model has a JSON text. *)
Fixpoint json_serializable (v : value) : bool :=
  match v with
  | VBytes _ => false
  | VList l => forallb json_serializable l
  | VDict d => forallb (λ kv, json_serializable (snd kv)) d
  | _ => true
  end.

(** The numbers [JSON.parse] reads back as [json.dumps] wrote them: an
    integer beyond 2^53 in size is rounded to the nearest double. *)
Fixpoint json_safe (v : value) : bool :=
  match v with
  | VNum n => (Z.abs n <=? 2 ^ 53)%Z
  | VList l => forallb json_safe l
  | VDict d => forallb (λ kv, json_safe (snd kv)) d
  | _ => true
  end.



(** A JSON text, named by the value it denotes: [JSON.parse] of the text
    [json.dumps] wrote gives the value back, as long as its numbers are
    [json_safe]. *)
Inductive json_text : Type := JsonText (v : value).

Definition json_dumps (v : value) : exn + json_text :=
  if json_serializable v then inr (JsonText v)
  else inl (PythonError "TypeError: Object of type bytes is not JSON serializable").

Definition JSON_parse (t : json_text) : value :=
  match t with JsonText v => v end.

(** ** Computations that change a state and may throw *)

Definition M (S A : Type) : Type := S → (exn + A) * S.

Definition ret {S A} (a : A) : M S A := λ s, (inr a, s).
Definition throw {S A} (e : exn) : M S A := λ s, (inl e, s).
Definition bind {S A B} (c : M S A) (k : A → M S B) : M S B :=
  λ s, match c s with
       | (inl e, s') => (inl e, s')
       | (inr a, s') => k a s'
       end.
(** [try { c } catch (e) { h e }] *)
Definition try_catch {S A} (c : M S A) (h : exn → M S A) : M S A :=
  λ s, match c s with
       | (inl e, s') => h e s'
       | (inr a, s') => (inr a, s')
       end.
Definition lift {S A} (r : exn + A) : M S A := λ s, (r, s).
Definition gets {S A} (f : S → A) : M S A := λ s, (inr (f s), s).
Definition modify {S} (f : S → S) : M S unit := λ s, (inr tt, f s).

Notation "'let*' x ':=' c 'in' k" := (bind c (λ x, k))
  (at level 10, x pattern, c at level 100, k at level 200).
Notation "c ';;' k" := (bind c (λ _, k))
  (at level 100, k at level 200, right associativity).

(** [c] leaves the observation [f] of the state as it was. *)
Definition keeps {S A X} (f : S → X) (c : M S A) : Prop :=
  ∀ s, f (c s).2 = f s.

(** [for (const x of xs) { ... }], stopping at the first exception. *)
Fixpoint for_each {S A B} (f : A → M S B) (xs : list A) : M S (list B) :=
  match xs with
  | [] => ret []
  | x :: xs' => let* y := f x in let* ys := for_each f xs' in ret (y :: ys)
  end.

(** ** The world outside the page *)

Record response : Type := {
  resp_ok : bool;                 (* [r.ok] *)
  resp_json : exn + value;        (* [await r.json()] *)
  resp_text : jsstring            (* [await r.text()] *)
}.

(** A Python object: plain data, a callable, or a module of [sys.modules].
    A callable sees the wall clock and its positional arguments. *)
Inductive pyobj : Type :=
| PyVal (v : value)
| PyFun (f : jsstring → list value → exn + value)
| PyMod (name : string).

Record Env : Type := {
  (* [loadPyodide(...)]: the files of a fresh runtime, or a rejection *)
  env_loadPyodide : exn + gmap string (list N);
  (* [py.loadPackage([...])] *)
  env_loadPackage : option exn;
  (* [fetch] of settings.json and of engine_pyodide.py *)
  env_fetch_settings : exn + response;
  env_fetch_engine : exn + response;
  (* [sys.path] of the runtime *)
  env_sys_path : list string;
  (* the interpreter running a source text in a namespace: the namespace
     it leaves, and the exception it stopped with, if any *)
  env_exec : list N → gmap string pyobj → gmap string pyobj * option exn;
  (* [new Date()] at the [n]-th reading of the clock *)
  env_toLocaleTimeString : nat → jsstring;
  env_toISOString : nat → jsstring
}.

(** A [File] of an [<input type=file>]: its name and what
    [arrayBuffer()] settles with. *)
Record File : Type := { file_name : jsstring; file_bytes : exn + list N }.

(** ** The Pyodide runtime *)

(** [rt_executed] and [rt_calls] are ghost fields: the source texts run
    as engine code (the module sources that an import or a reload runs
    and the texts that [loadEngine] runs; the fixed snippets of the two
    scripts are not recorded), and every call of [build_all] with its
    positional arguments and what it returned or raised, oldest first. *)
Record Runtime : Type := {
  rt_fs : gmap string (list N);                 (* [pyodide.FS] *)
  rt_modules : gmap string (gmap string pyobj); (* [sys.modules] *)
  rt_globals : gmap string pyobj;               (* [pyodide.globals] *)
  rt_executed : list (list N);
  rt_calls : list (list value * (exn + value))
}.

Definition fresh_runtime (fs : gmap string (list N)) : Runtime :=
  {| rt_fs := fs; rt_modules := ∅; rt_globals := ∅;
     rt_executed := []; rt_calls := [] |}.

Definition set_fs (f : gmap string (list N) → gmap string (list N)) (rt : Runtime) :=
  {| rt_fs := f (rt_fs rt); rt_modules := rt_modules rt; rt_globals := rt_globals rt;
     rt_executed := rt_executed rt; rt_calls := rt_calls rt |}.
Definition set_modules (f : gmap string (gmap string pyobj) → gmap string (gmap string pyobj))
    (rt : Runtime) :=
  {| rt_fs := rt_fs rt; rt_modules := f (rt_modules rt); rt_globals := rt_globals rt;
     rt_executed := rt_executed rt; rt_calls := rt_calls rt |}.
Definition set_globals (f : gmap string pyobj → gmap string pyobj) (rt : Runtime) :=
  {| rt_fs := rt_fs rt; rt_modules := rt_modules rt; rt_globals := f (rt_globals rt);
     rt_executed := rt_executed rt; rt_calls := rt_calls rt |}.
Definition note_executed (src : list N) (rt : Runtime) :=
  {| rt_fs := rt_fs rt; rt_modules := rt_modules rt; rt_globals := rt_globals rt;
     rt_executed := rt_executed rt ++ [src]; rt_calls := rt_calls rt |}.
Definition note_call (args : list value) (out : exn + value) (rt : Runtime) :=
  {| rt_fs := rt_fs rt; rt_modules := rt_modules rt; rt_globals := rt_globals rt;
     rt_executed := rt_executed rt; rt_calls := rt_calls rt ++ [(args, out)] |}.

(** [pyodide.globals.set(name, v)] *)
Definition globals_set (name : string) (v : value) : M Runtime unit :=
  modify (set_globals (insert name (PyVal v))).

(** A global name read by Python code. *)
Definition py_name (name : string) : M Runtime pyobj :=
  let* g := gets rt_globals in
  match g !! name with
  | Some o => ret o
  | None => throw (PythonError "NameError")
  end.

Definition py_data (o : pyobj) : M Runtime value :=
  match o with
  | PyVal v => ret v
  | _ => throw (PythonError "TypeError")
  end.

(** [f(args)], with the clock the callable may read. *)
Definition py_call (now : jsstring) (o : pyobj) (args : list value) : M Runtime value :=
  match o with
  | PyFun f => modify (note_call args (f now args)) ;; lift (f now args)
  | _ => throw (PythonError "TypeError: object is not callable")
  end.

(** The path-based finder: the first directory of [sys.path] that holds
    [name.py]. *)
Definition path_join (dir file : string) : string :=
  if String.eqb dir "/" then ("/" ++ file)%string else (dir ++ "/" ++ file)%string.

Definition find_module (sys_path : list string) (fs : gmap string (list N))
    (name : string) : option (list N) :=
  list_find (λ p, is_Some (fs !! p)) (map (λ dir, path_join dir (name ++ ".py")) sys_path)
    ≫= λ ip, fs !! ip.2.

Definition ModuleNotFoundError : exn := PythonError "ModuleNotFoundError".

(** [import name] when [name] is not in [sys.modules]: find the source,
    run it in a new namespace, and register the module unless the run
    raised. *)
Definition py_first_import (env : Env) (name : string) : M Runtime unit :=
  let* fs := gets rt_fs in
  match find_module (env_sys_path env) fs name with
  | None => throw ModuleNotFoundError
  | Some src =>
      modify (note_executed src) ;;
      match env_exec env src ∅ with
      | (_, Some e) => throw e
      | (ns, None) => modify (set_modules (insert name ns))
      end
  end.

(** [importlib.reload(sys.modules[name])]: find the source again and run
    it in the namespace the module already has; what the run changed
    stays, also when it raised. *)
Definition py_reload (env : Env) (name : string) (old : gmap string pyobj)
    : M Runtime unit :=
  let* fs := gets rt_fs in
  match find_module (env_sys_path env) fs name with
  | None => throw ModuleNotFoundError
  | Some src =>
      modify (note_executed src) ;;
      let '(ns, err) := env_exec env src old in
      modify (set_modules (insert name ns)) ;;
      match err with Some e => throw e | None => ret tt end
  end.

(** The settings document, when the fetch and the parse both succeed. *)
Definition settings_document (env : Env) : option value :=
  match env_fetch_settings env with
  | inr resp => match resp_json resp with inr v => Some v | inl _ => None end
  | inl _ => None
  end.

(** [null], a boolean, a number or a string: the values that cross into
    Python as plain objects, not as proxies. *)
Definition json_primitive (v : value) : bool :=
  match v with
  | VNull | VBool _ | VNum _ | VStr _ => true
  | VBytes _ | VList _ | VDict _ => false
  end.

(** The same world with other [ok] flags on the two responses. *)
Definition with_ok (b : bool) (r : exn + response) : exn + response :=
  match r with
  | inl e => inl e
  | inr resp =>
      inr {| resp_ok := b; resp_json := resp_json resp; resp_text := resp_text resp |}
  end.

Definition env_with_ok (settings_ok engine_ok : bool) (env : Env) : Env :=
  {| env_loadPyodide := env_loadPyodide env;
     env_loadPackage := env_loadPackage env;
     env_fetch_settings := with_ok settings_ok (env_fetch_settings env);
     env_fetch_engine := with_ok engine_ok (env_fetch_engine env);
     env_sys_path := env_sys_path env;
     env_exec := env_exec env;
     env_toLocaleTimeString := env_toLocaleTimeString env;
     env_toISOString := env_toISOString env |}.

(** ** app.js *)

Module App.

(** The script's two variables, the elements it looked up ([None]: the
    page has no such element) and what the user has seen. *)
Record State : Type := {
  SETTINGS : value;                      (* [let SETTINGS = null] *)
  pyodide : option Runtime;              (* [let pyodide = null] *)
  fileInput : option (list File);        (* [#csvFiles], its [files] *)
  dateEl : option jsstring;              (* [#targetDate], its [value] *)
  logEl : option jsstring;               (* [#log], its [textContent] *)
  alerts : list jsstring;                (* every [alert(...)] so far *)
  console : list (exn + value);          (* [console.error] / [console.log] *)
  clock : nat                            (* readings of the clock so far *)
}.

Definition initial (files : option (list File)) (date log : option jsstring) : State :=
  {| SETTINGS := VNull; pyodide := None; fileInput := files; dateEl := date;
     logEl := log; alerts := []; console := []; clock := 0 |}.

Definition set_SETTINGS (v : value) (st : State) : State :=
  {| SETTINGS := v; pyodide := pyodide st; fileInput := fileInput st;
     dateEl := dateEl st; logEl := logEl st; alerts := alerts st;
     console := console st; clock := clock st |}.
Definition set_pyodide (p : option Runtime) (st : State) : State :=
  {| SETTINGS := SETTINGS st; pyodide := p; fileInput := fileInput st;
     dateEl := dateEl st; logEl := logEl st; alerts := alerts st;
     console := console st; clock := clock st |}.
Definition set_log (text : jsstring) (st : State) : State :=
  {| SETTINGS := SETTINGS st; pyodide := pyodide st; fileInput := fileInput st;
     dateEl := dateEl st; logEl := Some text; alerts := alerts st;
     console := console st; clock := S (clock st) |}.
Definition add_alert (msg : jsstring) (st : State) : State :=
  {| SETTINGS := SETTINGS st; pyodide := pyodide st; fileInput := fileInput st;
     dateEl := dateEl st; logEl := logEl st; alerts := alerts st ++ [msg];
     console := console st; clock := clock st |}.
Definition add_console (x : exn + value) (st : State) : State :=
  {| SETTINGS := SETTINGS st; pyodide := pyodide st; fileInput := fileInput st;
     dateEl := dateEl st; logEl := logEl st; alerts := alerts st;
     console := console st ++ [x]; clock := clock st |}.

Definition ellipsis : N := 8230.   (* U+2026 *)
Definition em_dash : N := 8212.    (* U+2014 *)

(** [function log(msg)] *)
Definition log (env : Env) (msg : jsstring) : M State unit :=
  λ st, match logEl st with
        | None => (inr tt, st)
        | Some text =>
            let time := env_toLocaleTimeString env (clock st) in
            (inr tt, set_log (text ++ js "[" ++ time ++ js "] " ++ msg ++ [10]) st)
        end.

Definition alert (msg : jsstring) : M State unit := modify (add_alert msg).

(** A step of the script that reads [pyodide.member]: a [TypeError]
    while the variable is still [null]. *)
Definition with_pyodide {A} (member : string) (c : M Runtime A) : M State A :=
  λ st, match pyodide st with
        | None => (inl (null_read member), st)
        | Some rt => let '(r, rt') := c rt in (r, set_pyodide (Some rt') st)
        end.

Definition engine_path : string := "/engine_pyodide.py".
Definition placeholder : jsstring := js "REPLACE_WITH_ENGINE_CODE_IF_EMBEDDING".

(** The [try]/[catch] around the settings fetch. *)
Definition load_settings (env : Env) : M State unit :=
  try_catch
    (let* r := lift (env_fetch_settings env) in
     if resp_ok r then
       let* v := lift (resp_json r) in
       modify (set_SETTINGS v) ;;
       log env (js "Loaded settings.json")
     else
       log env (js "settings.json not found " ++ [em_dash] ++ js " continuing with null"))
    (λ _, log env (js "settings.json fetch failed " ++ [em_dash] ++ js " continuing")).

(** [(async function boot() { ... })()]; a rejection of [loadPyodide]
    ends it. *)
Definition boot (env : Env) : M State unit :=
  log env (js "Loading Pyodide" ++ [ellipsis]) ;;
  let* fs := lift (env_loadPyodide env) in
  modify (set_pyodide (Some (fresh_runtime fs))) ;;
  log env (js "Pyodide ready") ;;
  load_settings env ;;
  with_pyodide "FS" (modify (set_fs (insert engine_path (utf8_encode placeholder)))).

(** [SETTINGS ? pyodide.toPy(SETTINGS) : pyodide.toPy(null)] *)
Definition settings_py (settings : value) : value :=
  if truthy settings then settings else VNull.

(** [filesToPyTuples]: a Python list of [name, bytes] pairs. *)
Definition filesToPyTuples (fileList : list File) : M State value :=
  let* tuples :=
    for_each (λ f,
      let* buf := lift (file_bytes f) in
      let* pyBytes := with_pyodide "toPy" (ret (VBytes buf)) in
      ret (VList [VStr (file_name f); pyBytes])) fileList in
  with_pyodide "toPy" (ret (VList tuples)).

Definition modname : string := "engine_pyodide".

(** The Python of [pyCode], run by [runPythonAsync]. *)
Definition pyCode (env : Env) (now : jsstring) : M Runtime json_text :=
  (* import sys, importlib, json *)
  modify (set_globals (insert "sys" (PyMod "sys"))) ;;
  modify (set_globals (insert "importlib" (PyMod "importlib"))) ;;
  modify (set_globals (insert "json" (PyMod "json"))) ;;
  (* modname = "engine_pyodide" *)
  globals_set "modname" (VStr (js modname)) ;;
  (* if modname in sys.modules: reload, else: import *)
  let* mods := gets rt_modules in
  match mods !! modname with
  | Some old => py_reload env modname old
  | None =>
      py_first_import env modname ;;
      modify (set_globals (insert modname (PyMod modname)))
  end ;;
  (* import engine_pyodide as eng *)
  modify (set_globals (insert "eng" (PyMod modname))) ;;
  (* _result = eng.build_all(files_py, target_date_py, settings_py) *)
  let* mods := gets rt_modules in
  let* build_all :=
    match mods !! modname ≫= (.!! "build_all") with
    | Some o => ret o
    | None => throw (PythonError "AttributeError: build_all")
    end in
  let* a1 := (let* o := py_name "files_py" in py_data o) in
  let* a2 := (let* o := py_name "target_date_py" in py_data o) in
  let* a3 := (let* o := py_name "settings_py" in py_data o) in
  let* result := py_call now build_all [a1; a2; a3] in
  modify (set_globals (insert "_result" (PyVal result))) ;;
  match result with
  | VDict d =>
      (* _result["engine_loaded"] = True *)
      let d1 := dict_set d (js "engine_loaded") (VBool true) in
      (* _result["engine_version"] = _result.get("engine_version", "<unknown>") *)
      let version := default (VStr (js "<unknown>")) (dict_get d1 (js "engine_version")) in
      let d2 := dict_set d1 (js "engine_version") version in
      modify (set_globals (insert "_result" (PyVal (VDict d2)))) ;;
      (* json.dumps(_result) *)
      lift (json_dumps (VDict d2))
  | _ => throw (PythonError "TypeError: object does not support item assignment")
  end.

(** The [catch] of the click handler. *)
Definition on_error (env : Env) (e : exn) : M State unit :=
  modify (add_console (inl e)) ;;
  log env (js "ERROR: " ++ exn_text e) ;;
  alert (js "Build failed: " ++ exn_text e).

(** The body of the [try] of the click handler.  It answers [None] for
    the early [return] after the alert, and otherwise with the parsed
    result that the last statement logs to the console. *)
Definition build (env : Env) : M State (option value) :=
  let* files := gets (λ st, default [] (fileInput st)) in
  match files with
  | [] => alert (js "Select your 6 CSVs first.") ;; ret None
  | _ :: _ =>
      let* files_py := filesToPyTuples files in
      let* date := gets (λ st, target_date_py (dateEl st)) in
      let* settings := gets SETTINGS in
      let* settings_arg := with_pyodide "toPy" (ret (settings_py settings)) in
      with_pyodide "globals" (globals_set "files_py" files_py) ;;
      with_pyodide "globals" (globals_set "target_date_py" (VStr date)) ;;
      with_pyodide "globals" (globals_set "settings_py" settings_arg) ;;
      log env (js "Building" ++ [ellipsis]) ;;
      let* now := gets (λ st, env_toISOString env (clock st)) in
      let* out := with_pyodide "runPythonAsync" (pyCode env now) in
      let result := JSON_parse out in
      let* version := lift (get_prop result "engine_version") in
      log env (js "Built OK " ++ [em_dash] ++ js " Engine "
               ++ match version with Some v => to_string v | None => js "undefined" end) ;;
      modify (add_console (inr result)) ;;
      ret (Some result)
  end.

(** [buildBtn.addEventListener("click", async () => { try ... catch ... })] *)
Definition click (env : Env) : M State (option value) :=
  try_catch (build env) (λ e, on_error env e ;; ret None).

(** Every selected file can be read. *)
Definition readable (files : list File) : bool :=
  forallb (λ f, match file_bytes f with inr _ => true | inl _ => false end) files.

(** The click gets as far as [runPythonAsync]: the runtime is there, files
    are selected and all of them can be read. *)
Definition selection_readable (files : option (list File)) : bool :=
  match default [] files with
  | f :: fs => readable (f :: fs)
  | [] => false
  end.

Definition reaches_python (st : State) : bool :=
  match pyodide st with
  | Some _ => selection_readable (fileInput st)
  | None => false
  end.

(** The ghost trace of calls of the runtime the script holds. *)
Definition calls (st : State) : list (list value * (exn + value)) :=
  match pyodide st with Some rt => rt_calls rt | None => [] end.

(** The user picks files and types a date. *)
Definition select (files : option (list File)) (date : option jsstring)
    (st : State) : State :=
  {| SETTINGS := SETTINGS st; pyodide := pyodide st; fileInput := files;
     dateEl := date; logEl := logEl st; alerts := alerts st;
     console := console st; clock := clock st |}.

(** A session: the page boots, then the user clicks Build any number of
    times, each time on a selection of files and a date. *)
Fixpoint clicks (env : Env) (inputs : list (option (list File) * option jsstring))
    (st : State) : State :=
  match inputs with
  | [] => st
  | (files, date) :: rest => clicks env rest (click env (select files date st)).2
  end.

Definition session (env : Env) (inputs : list (option (list File) * option jsstring))
    (st : State) : State :=
  clicks env inputs (boot env st).2.

(** [resetBtn.addEventListener("click", () => { ... })]: the handler has
    no [try]; [fileInput.value = ""] throws when the page has no
    [#csvFiles], and on a file input it empties the selection. *)
Definition reset (env : Env) : M State unit :=
  let* input := gets fileInput in
  match input with
  | None => throw (TypeError "Cannot set properties of null (setting 'value')")
  | Some _ =>
      (* fileInput.value = "" *)
      modify (λ st, select (Some []) (dateEl st) st) ;;
      (* if (dateEl) dateEl.value = "" *)
      modify (λ st, select (fileInput st)
                      (match dateEl st with Some _ => Some [] | None => None end) st) ;;
      log env (js "Reset.")
  end.

(** The text of [#log] is extended, or there is no [#log]. *)
Definition log_extends (before after : option jsstring) : Prop :=
  match before with
  | None => after = None
  | Some text => ∃ suffix, after = Some (text ++ suffix)
  end.

End App.

(** ** The Pyodide glue script (the front end with [#runBtn]) *)

Module Glue.

(** What a report region shows: nothing, or a heading followed by
    tables.  A cell holds the value of the interpolated expression; the
    markup prints its [ToString] unescaped, so this is what the page
    shows for values that are [markup_free], and a value that holds
    markup can add cells and rows of its own. *)
Record table : Type := {
  tbl_title : jsstring;
  tbl_head : list string;
  tbl_rows : list (list value)
}.

Inductive html : Type :=
| HEmpty
| HBlock (heading : string) (tables : list table).

(** The page of the glue script.  The elements the script looks up by
    id are taken to exist: on a page without one of them the lookup
    yields [null] and the handler throws, outside any [try]. *)
Record State : Type := {
  pyodidePromise : option (exn + Runtime);   (* the cached promise, settled *)
  fileInput : list File;                     (* [#fileInput], its [files]; none when [null] *)
  targetDate : jsstring;                     (* [#targetDate], its [value] *)
  status : jsstring;                         (* [#status], its [textContent] *)
  badge : jsstring;                          (* [#badge], its [textContent] *)
  summary : html;                            (* [innerHTML] of the regions *)
  vet : html;
  swaps : html;
  audit : html;
  alerts : list jsstring;
  console : list exn;
  clock : nat
}.

Definition set_promise (p : option (exn + Runtime)) (st : State) : State :=
  {| pyodidePromise := p; fileInput := fileInput st; targetDate := targetDate st;
     status := status st; badge := badge st; summary := summary st; vet := vet st;
     swaps := swaps st; audit := audit st; alerts := alerts st;
     console := console st; clock := clock st |}.
Definition set_status (s : jsstring) (st : State) : State :=
  {| pyodidePromise := pyodidePromise st; fileInput := fileInput st;
     targetDate := targetDate st; status := s; badge := badge st;
     summary := summary st; vet := vet st; swaps := swaps st; audit := audit st;
     alerts := alerts st; console := console st; clock := clock st |}.
Definition set_badge (s : jsstring) (st : State) : State :=
  {| pyodidePromise := pyodidePromise st; fileInput := fileInput st;
     targetDate := targetDate st; status := status st; badge := s;
     summary := summary st; vet := vet st; swaps := swaps st; audit := audit st;
     alerts := alerts st; console := console st; clock := clock st |}.
Definition set_summary (h : html) (st : State) : State :=
  {| pyodidePromise := pyodidePromise st; fileInput := fileInput st;
     targetDate := targetDate st; status := status st; badge := badge st;
     summary := h; vet := vet st; swaps := swaps st; audit := audit st;
     alerts := alerts st; console := console st; clock := clock st |}.
Definition set_vet (h : html) (st : State) : State :=
  {| pyodidePromise := pyodidePromise st; fileInput := fileInput st;
     targetDate := targetDate st; status := status st; badge := badge st;
     summary := summary st; vet := h; swaps := swaps st; audit := audit st;
     alerts := alerts st; console := console st; clock := clock st |}.
Definition set_swaps (h : html) (st : State) : State :=
  {| pyodidePromise := pyodidePromise st; fileInput := fileInput st;
     targetDate := targetDate st; status := status st; badge := badge st;
     summary := summary st; vet := vet st; swaps := h; audit := audit st;
     alerts := alerts st; console := console st; clock := clock st |}.
Definition set_audit (h : html) (st : State) : State :=
  {| pyodidePromise := pyodidePromise st; fileInput := fileInput st;
     targetDate := targetDate st; status := status st; badge := badge st;
     summary := summary st; vet := vet st; swaps := swaps st; audit := h;
     alerts := alerts st; console := console st; clock := clock st |}.
Definition add_alert (msg : jsstring) (st : State) : State :=
  {| pyodidePromise := pyodidePromise st; fileInput := fileInput st;
     targetDate := targetDate st; status := status st; badge := badge st;
     summary := summary st; vet := vet st; swaps := swaps st; audit := audit st;
     alerts := alerts st ++ [msg]; console := console st; clock := clock st |}.
Definition add_console (e : exn) (st : State) : State :=
  {| pyodidePromise := pyodidePromise st; fileInput := fileInput st;
     targetDate := targetDate st; status := status st; badge := badge st;
     summary := summary st; vet := vet st; swaps := swaps st; audit := audit st;
     alerts := alerts st; console := console st ++ [e]; clock := clock st |}.
Definition tick (st : State) : State :=
  {| pyodidePromise := pyodidePromise st; fileInput := fileInput st;
     targetDate := targetDate st; status := status st; badge := badge st;
     summary := summary st; vet := vet st; swaps := swaps st; audit := audit st;
     alerts := alerts st; console := console st; clock := S (clock st) |}.

Definition ellipsis : N := 8230.   (* U+2026 *)
Definition check_mark : N := 10004. (* U+2714 *)

(** [new Date().toISOString()] *)
Definition read_clock (env : Env) : M State jsstring :=
  let* iso := gets (λ st, env_toISOString env (clock st)) in
  modify tick ;;
  ret iso.

(** [ensurePyodide]: the promise is created once and kept, rejected or
    not. *)
Definition ensurePyodide (env : Env) : M State unit :=
  let* cached := gets pyodidePromise in
  match cached with
  | Some (inr _) => ret tt
  | Some (inl e) => throw e
  | None =>
      let settled :=
        match env_loadPyodide env with
        | inl e => inl e
        | inr fs =>
            match env_loadPackage env with
            | Some e => inl e
            | None => inr (fresh_runtime fs)
            end
        end in
      modify (set_promise (Some settled)) ;;
      match settled with inl e => throw e | inr _ => ret tt end
  end.

(** A step that runs inside the runtime [ensurePyodide] resolved with. *)
Definition with_py {A} (c : M Runtime A) : M State A :=
  λ st, match pyodidePromise st with
        | Some (inr rt) =>
            let '(r, rt') := c rt in (r, set_promise (Some (inr rt')) st)
        | _ => (inl (TypeError "Cannot read properties of undefined"), st)
        end.

(** [py.runPythonAsync(code)] for a whole source text: it runs in the
    global namespace. *)
Definition run_source (env : Env) (code : jsstring) : M Runtime unit :=
  let src := utf8_encode code in
  modify (note_executed src) ;;
  let* g := gets rt_globals in
  let '(g', err) := env_exec env src g in
  modify (set_globals (λ _, g')) ;;
  match err with Some e => throw e | None => ret tt end.

(** [loadEngine]; the function object it returns is not used by the
    caller, which calls [build_all] by name from Python. *)
Definition loadEngine (env : Env) : M State unit :=
  let* r := lift (env_fetch_engine env) in
  with_py (run_source env (resp_text r)).

(** [readSettings] *)
Definition readSettings (env : Env) : M State value :=
  let* r := lift (env_fetch_settings env) in
  lift (resp_json r).

(** [x.to_py()] in Python: only a proxy of a JavaScript object has the
    method; [null], booleans, numbers and strings arrive as plain Python
    objects without it. *)
Definition to_py (v : value) : M Runtime value :=
  match v with
  | VBytes _ | VList _ | VDict _ => ret v
  | _ => throw (PythonError "AttributeError: to_py")
  end.

(** The Python of [pyCode]. *)
Definition pyCode (now : jsstring) : M Runtime json_text :=
  (* res = build_all(JS_FILE_MAP.to_py(), JS_SETTINGS.to_py(), JS_TARGET_DATE) *)
  let* build_all := py_name "build_all" in
  let* a1 := (let* o := py_name "JS_FILE_MAP" in let* v := py_data o in to_py v) in
  let* a2 := (let* o := py_name "JS_SETTINGS" in let* v := py_data o in to_py v) in
  let* a3 := (let* o := py_name "JS_TARGET_DATE" in py_data o) in
  let* res := py_call now build_all [a1; a2; a3] in
  modify (set_globals (insert "res" (PyVal res))) ;;
  (* import json *)
  modify (set_globals (insert "json" (PyMod "json"))) ;;
  (* json.dumps(res) *)
  lift (json_dumps res).

(** [for (const f of files) fileMap[f.name] = toBytes(await f.arrayBuffer())],
    for file names other than __proto__: that name sets the prototype of
    the object and adds no key. *)
Fixpoint fill_fileMap (files : list File) (fileMap : list (jsstring * value))
    : exn + list (jsstring * value) :=
  match files with
  | [] => inr fileMap
  | f :: files' =>
      match file_bytes f with
      | inl e => inl e
      | inr buf => fill_fileMap files' (dict_set fileMap (file_name f) (VBytes buf))
      end
  end.

(** [buildData(files)] *)
Definition buildData (env : Env) (files : list File) : M State value :=
  modify (set_status (js "Loading Pyodide" ++ [ellipsis])) ;;
  ensurePyodide env ;;
  modify (set_status (js "Preparing engine" ++ [ellipsis])) ;;
  loadEngine env ;;
  modify (set_status (js "Reading settings" ++ [ellipsis])) ;;
  let* settings := readSettings env in
  let* fileMap := lift (fill_fileMap files []) in
  let* date := gets (λ st, glue_targetDate (targetDate st)) in
  with_py (globals_set "JS_FILE_MAP" (VDict fileMap)) ;;
  with_py (globals_set "JS_SETTINGS" settings) ;;
  with_py (globals_set "JS_TARGET_DATE" (VStr date)) ;;
  modify (set_status (js "Processing in browser" ++ [ellipsis])) ;;
  let* now := gets (λ st, env_toISOString env (clock st)) in
  let* jsonStr := with_py (pyCode now) in
  modify (set_status (js "Done.")) ;;
  let data := JSON_parse jsonStr in
  (* "Data as of: " + (data.generated_at || new Date().toISOString()) *)
  let* generated_at := lift (get_prop data "generated_at") in
  let* shown :=
    match generated_at with
    | Some v => if truthy v then ret (to_string v) else read_clock env
    | None => read_clock env
    end in
  modify (set_badge (js "Data as of: " ++ shown)) ;;
  ret data.

(** An array index as a property key: the decimal text of an integer
    below 2^32 - 1, without a leading zero. *)
Definition index_value (k : jsstring) : N :=
  fold_left (λ acc c, 10 * acc + (c - 48)) k 0.

Definition array_index (k : jsstring) : option N :=
  match k with
  | [] => None
  | c :: rest =>
      if forallb is_digit k
         && (negb (c =? 48) || match rest with [] => true | _ :: _ => false end)
         && (length k <=? 10)%nat
         && (index_value k <? 4294967295)
      then Some (index_value k)
      else None
  end.

Fixpoint insert_index (i : N) (e : jsstring * value)
    (l : list (N * (jsstring * value))) : list (N * (jsstring * value)) :=
  match l with
  | [] => [(i, e)]
  | (j, e') :: l' => if i <? j then (i, e) :: l else (j, e') :: insert_index i e l'
  end.

(** The own properties of an object in the order in which they are
    enumerated: array indices first, ascending, then the other keys in
    insertion order. *)
Fixpoint indexed_entries (d : list (jsstring * value)) : list (N * (jsstring * value)) :=
  match d with
  | [] => []
  | e :: d' =>
      match array_index (fst e) with
      | Some i => insert_index i e (indexed_entries d')
      | None => indexed_entries d'
      end
  end.

Fixpoint named_entries (d : list (jsstring * value)) : list (jsstring * value) :=
  match d with
  | [] => []
  | e :: d' =>
      match array_index (fst e) with
      | Some _ => named_entries d'
      | None => e :: named_entries d'
      end
  end.

Definition own_entries (d : list (jsstring * value)) : list (jsstring * value) :=
  map snd (indexed_entries d) ++ named_entries d.

(** [Object.entries(v)] for a value that is neither [null] nor
    [undefined]. *)
Definition object_entries (v : value) : list (jsstring * value) :=
  match v with
  | VDict d => own_entries d
  | VList l => imap (λ i x, (decimal (Z.of_nat i), x)) l
  | VStr s => imap (λ i c, (decimal (Z.of_nat i), VStr [c])) s
  | _ => []
  end.

(** [m.k || d] *)
Definition prop_or (m : value) (k : string) (d : value) : exn + value :=
  match get_prop m k with
  | inl e => inl e
  | inr p => inr (js_or p d)
  end.

(** [r.present ? "✔" : ""] *)
Definition present_mark (r : value) : exn + value :=
  match get_prop r "present" with
  | inl e => inl e
  | inr p =>
      let shown := match p with Some v => truthy v | None => false end in
      inr (VStr (if shown then [check_mark] else []))
  end.

(** The cells of one row: each is computed in turn, the first exception
    ends the row. *)
Fixpoint cells (cs : list (exn + value)) : exn + list value :=
  match cs with
  | [] => inr []
  | inl e :: _ => inl e
  | inr v :: cs' =>
      match cells cs' with
      | inl e => inl e
      | inr vs => inr (v :: vs)
      end
  end.

(** [(a || 0) + (b || 0)] *)
Definition sum_or0 (m : value) (a b : string) : exn + value :=
  match prop_or m a (VNum 0) with
  | inl e => inl e
  | inr x =>
      match prop_or m b (VNum 0) with
      | inl e => inl e
      | inr y => inr (js_add x y)
      end
  end.

(** One [<tr>] of the department summary. *)
Definition summary_row (entry : jsstring * value) : exn + list value :=
  let '(dept, m) := entry in
  cells [ inr (VStr dept);
          sum_or0 m "regular_expected_AMZN" "regular_expected_TEMP";
          sum_or0 m "regular_present_AMZN" "regular_present_TEMP";
          prop_or m "swap_out" (VNum 0);
          prop_or m "swap_in_expected" (VNum 0);
          prop_or m "swap_in_present" (VNum 0);
          prop_or m "vet_accept" (VNum 0);
          prop_or m "vet_present" (VNum 0);
          prop_or m "vto_accept" (VNum 0) ].

(** [arr.map(f)]: only an array has the method; [callee] is the text
    of the expression before [.map], which the error message quotes. *)
Definition array_map {A} (callee : string) (f : value → exn + A) (arr : value)
    : M State (list A) :=
  match arr with
  | VList l => for_each (λ r, lift (f r)) l
  | _ => throw (TypeError (callee ++ ".map is not a function"))
  end.

(** [renderSummaryBlock(summary)] *)
Definition renderSummaryBlock (summary_data : value) : M State unit :=
  let* by_department := lift (prop_or summary_data "by_department" (VDict [])) in
  let* rows := for_each (λ e, lift (summary_row e)) (object_entries by_department) in
  modify (set_summary (HBlock "Department Summary"
    [ {| tbl_title := [];
         tbl_head := ["Dept"; "Regular Exp"; "Regular Present"; "Swap OUT";
                      "Swap IN Exp"; "Swap IN Pres"; "VET Acc"; "VET Pres"; "VTO Acc"]%string;
         tbl_rows := rows |} ])).

Definition vet_row (r : value) : exn + list value :=
  cells [ prop_or r "work_date" (VStr []); prop_or r "type" (VStr []);
          prop_or r "eid" (VStr []); prop_or r "dept_id" (VStr []);
          prop_or r "management_area_id" (VStr []);
          prop_or r "employment_type" (VStr []); present_mark r ].

(** [renderVetBlock(vet)] *)
Definition renderVetBlock (vet_data : value) : M State unit :=
  let* records := lift (prop_or vet_data "records" (VList [])) in
  let* rows := array_map "(vet.records || [])" vet_row records in
  modify (set_vet (HBlock "VET / VTO"
    [ {| tbl_title := [];
         tbl_head := ["Date"; "Type"; "EID"; "DeptID"; "MA"; "Type"; "Present"]%string;
         tbl_rows := rows |} ])).

Definition swap_row (r : value) : exn + list value :=
  cells [ prop_or r "skip_date" (VStr []); prop_or r "work_date" (VStr []);
          prop_or r "eid" (VStr []); prop_or r "dept_id" (VStr []);
          prop_or r "management_area_id" (VStr []);
          prop_or r "employment_type" (VStr []); present_mark r ].

(** [arr.length], interpolated. *)
Definition length_text (arr : value) : jsstring :=
  match arr with
  | VList l => decimal (Z.of_nat (length l))
  | VStr s => decimal (Z.of_nat (length s))
  | VBytes b => decimal (Z.of_nat (length b))
  | VDict d => match dict_get d (js "length") with
               | Some v => to_string v
               | None => js "undefined"
               end
  | _ => js "undefined"
  end.

(** [block(title, arr)] inside [renderSwapsBlock]. *)
Definition swap_block (title : string) (arr : value) : M State table :=
  let heading := js title ++ js " (" ++ length_text arr ++ js ")" in
  let* rows := array_map "arr" swap_row arr in
  ret {| tbl_title := heading;
         tbl_head := ["Skip"; "Work"; "EID"; "DeptID"; "MA"; "Type"; "Present"]%string;
         tbl_rows := rows |}.

(** [renderSwapsBlock(sw)] *)
Definition renderSwapsBlock (sw : value) : M State unit :=
  let* out := lift (prop_or sw "swap_out" (VList [])) in
  let* b1 := swap_block "Swap OUT" out in
  let* inx := lift (prop_or sw "swap_in_expected" (VList [])) in
  let* b2 := swap_block "Swap IN (expected)" inx in
  let* inp := lift (prop_or sw "swap_in_present" (VList [])) in
  let* b3 := swap_block "Swap IN (present)" inp in
  modify (set_swaps (HBlock "Swaps" [b1; b2; b3])).

(** [renderAuditBlock()] *)
Definition renderAuditBlock : M State unit := modify (set_audit HEmpty).

(** The [try] of the click handler of [#runBtn]. *)
Definition build_and_render (env : Env) (files : list File) : M State unit :=
  let* data := buildData env files in
  let* s := lift (prop_or data "dept_summary" (VDict [])) in
  renderSummaryBlock s ;;
  let* v := lift (prop_or data "vet_vto" (VDict [(js "records", VList [])])) in
  renderVetBlock v ;;
  let* w := lift (prop_or data "swaps"
                    (VDict [(js "swap_out", VList []); (js "swap_in_expected", VList []);
                            (js "swap_in_present", VList [])])) in
  renderSwapsBlock w ;;
  renderAuditBlock.

(** The [catch] of the click handler. *)
Definition on_error (e : exn) : M State unit :=
  modify (add_console e) ;;
  modify (set_status (js "Error: " ++ exn_to_string e)).

(** [document.getElementById("runBtn").addEventListener("click", ...)] *)
Definition click (env : Env) : M State unit :=
  let* files := gets fileInput in
  match files with
  | [] => modify (add_alert (js "Please select your daily CSVs first."))
  | _ :: _ => try_catch (build_and_render env files) on_error
  end.

(** The ghost trace of calls of the runtime the page holds. *)
Definition calls (st : State) : list (list value * (exn + value)) :=
  match pyodidePromise st with Some (inr rt) => rt_calls rt | _ => [] end.

Definition initial (files : list File) (date : jsstring) : State :=
  {| pyodidePromise := None; fileInput := files; targetDate := date;
     status := []; badge := []; summary := HEmpty; vet := HEmpty; swaps := HEmpty;
     audit := HEmpty; alerts := []; console := []; clock := 0 |}.

Definition set_files (files : list File) (st : State) : State :=
  {| pyodidePromise := pyodidePromise st; fileInput := files;
     targetDate := targetDate st; status := status st; badge := badge st;
     summary := summary st; vet := vet st; swaps := swaps st; audit := audit st;
     alerts := alerts st; console := console st; clock := clock st |}.

Definition em_dash : N := 8212.    (* U+2014 *)

(** [document.getElementById("resetBtn").addEventListener("click", ...)] *)
Definition reset : M State unit :=
  modify (set_files []) ;;
  modify (set_summary HEmpty) ;;
  modify (set_vet HEmpty) ;;
  modify (set_swaps HEmpty) ;;
  modify (set_audit HEmpty) ;;
  modify (set_status (js "Cleared. (Ephemeral mode)")) ;;
  modify (set_badge (js "Data as of: " ++ [em_dash])).

(** What the promise of [ensurePyodide] settles with when it is created
    in a given world. *)
Definition load_outcome (env : Env) : exn + Runtime :=
  match env_loadPyodide env with
  | inl e => inl e
  | inr fs =>
      match env_loadPackage env with
      | Some e => inl e
      | None => inr (fresh_runtime fs)
      end
  end.

(** The runtime a click works in: the cached one, or the one loaded
    now. *)
Definition runtime_for (env : Env) (st : State) : option Runtime :=
  match pyodidePromise st with
  | Some (inr rt) => Some rt
  | Some (inl _) => None
  | None => match load_outcome env with inr rt => Some rt | inl _ => None end
  end.

End Glue.

(** ** Sample inputs *)

Module Sample.

(** The browser side: an engine that answers every call with a report of
    the five fields, served as engine_pyodide.py; any other source text
    stops with a NameError, as the bare name of the placeholder does. *)
Definition settings_json : value :=
  VDict [ (js "departments", VDict [ (js "D1", VStr (js "D1")) ]) ].

Definition engine_text : jsstring := js "def build_all(*args): return report()".

Definition report (now : jsstring) : value :=
  VDict [ (js "generated_at", VStr now);
          (js "dept_summary",
           VDict [ (js "by_department",
                    VDict [ (js "D1", VDict [ (js "regular_expected_AMZN", VNum 1);
                                              (js "regular_present_AMZN", VNum 1);
                                              (js "regular_expected_TEMP", VNum 1) ]) ]) ]);
          (js "presence_map", VDict []);
          (js "vet_vto", VDict [ (js "records", VList []) ]);
          (js "swaps", VDict [ (js "swap_out", VList []);
                               (js "swap_in_expected", VList []);
                               (js "swap_in_present", VList []) ]) ].

Definition build_all (now : jsstring) (args : list value) : exn + value :=
  inr (report now).

Definition exec (src : list N) (ns : gmap string pyobj)
    : gmap string pyobj * option exn :=
  if decide (src = utf8_encode engine_text)
  then (<["build_all" := PyFun build_all]> ns, None)
  else (ns, Some (PythonError "NameError")).

Definition env : Env :=
  {| env_loadPyodide := inr ∅;
     env_loadPackage := None;
     env_fetch_settings :=
       inr {| resp_ok := true; resp_json := inr settings_json; resp_text := [] |};
     env_fetch_engine :=
       inr {| resp_ok := true; resp_json := inl (Exn (js "SyntaxError") []);
              resp_text := engine_text |};
     env_sys_path := ["/home/pyodide"; "/"];
     env_exec := exec;
     env_toLocaleTimeString := λ n, js "08:00:0" ++ decimal (Z.of_nat n);
     env_toISOString := λ n, js "2025-10-04T08:00:0" ++ decimal (Z.of_nat n) ++ js ".000Z" |}.



(** The same world with settings.json out of reach. *)
Definition offline : Env :=
  {| env_loadPyodide := env_loadPyodide env;
     env_loadPackage := env_loadPackage env;
     env_fetch_settings := inl (TypeError "Failed to fetch");
     env_fetch_engine := env_fetch_engine env;
     env_sys_path := env_sys_path env;
     env_exec := env_exec env;
     env_toLocaleTimeString := env_toLocaleTimeString env;
     env_toISOString := env_toISOString env |}.

Definition csv : File :=
  {| file_name := js "roster.csv"; file_bytes := inr (utf8_encode (js "eid,dept_id")) |}.

Definition app_start : App.State :=
  App.initial (Some [csv]) (Some (js "04/10/2025")) (Some []).

(** app.js after boot, with the placeholder of the engine file replaced
    by engine code, as the placeholder asks. *)
Definition app_deployed (e : Env) : App.State :=
  let st := (App.boot e app_start).2 in
  App.set_pyodide
    (set_fs (insert App.engine_path (utf8_encode engine_text)) <$> App.pyodide st) st.

Definition glue_start : Glue.State := Glue.initial [csv] (js "2025-10-04").

(** The same world with the Pyodide CDN out of reach. *)
Definition no_runtime : Env :=
  {| env_loadPyodide := inl (TypeError "Failed to fetch");
     env_loadPackage := env_loadPackage env;
     env_fetch_settings := env_fetch_settings env;
     env_fetch_engine := env_fetch_engine env;
     env_sys_path := env_sys_path env;
     env_exec := env_exec env;
     env_toLocaleTimeString := env_toLocaleTimeString env;
     env_toISOString := env_toISOString env |}.

(** The same world with an engine whose [build_all] returns [v]. *)
Definition returning (v : value) : Env :=
  {| env_loadPyodide := env_loadPyodide env;
     env_loadPackage := env_loadPackage env;
     env_fetch_settings := env_fetch_settings env;
     env_fetch_engine := env_fetch_engine env;
     env_sys_path := env_sys_path env;
     env_exec := λ src ns, (<["build_all" := PyFun (λ _ _, inr v)]> ns, None);
     env_toLocaleTimeString := env_toLocaleTimeString env;
     env_toISOString := env_toISOString env |}.

(** The same world with [v] as the document of settings.json. *)
Definition with_settings (v : value) : Env :=
  {| env_loadPyodide := env_loadPyodide env;
     env_loadPackage := env_loadPackage env;
     env_fetch_settings :=
       inr {| resp_ok := true; resp_json := inr v; resp_text := [] |};
     env_fetch_engine := env_fetch_engine env;
     env_sys_path := env_sys_path env;
     env_exec := env_exec env;
     env_toLocaleTimeString := env_toLocaleTimeString env;
     env_toISOString := env_toISOString env |}.

(** The same world with a module search path that does not hold the
    root directory, as that of a stock Pyodide: the directories of the
    standard library and of the installed packages, and the home
    directory. *)
Definition off_path : Env :=
  {| env_loadPyodide := env_loadPyodide env;
     env_loadPackage := env_loadPackage env;
     env_fetch_settings := env_fetch_settings env;
     env_fetch_engine := env_fetch_engine env;
     env_sys_path := ["/lib/python312.zip"; "/lib/python3.12";
                      "/lib/python3.12/lib-dynload"; "/lib/python3.12/site-packages";
                      "/home/pyodide"];
     env_exec := env_exec env;
     env_toLocaleTimeString := env_toLocaleTimeString env;
     env_toISOString := env_toISOString env |}.

(** Two files of one name. *)
Definition old_roster : File := {| file_name := js "roster.csv"; file_bytes := inr [1] |}.
Definition new_roster : File := {| file_name := js "roster.csv"; file_bytes := inr [2] |}.

End Sample.

(** * Properties *)

(** ** Reasoning about computations *)

Section Keeps.
Context {S X : Type} (f : S → X).

Lemma keeps_ret {A} (a : A) : keeps f (ret a).
Proof. intros s. reflexivity. Qed.

Lemma keeps_throw {A} e : keeps f (throw (A := A) e).
Proof. intros s. reflexivity. Qed.

Lemma keeps_lift {A} (r : exn + A) : keeps f (lift r).
Proof. intros s. reflexivity. Qed.

Lemma keeps_gets {A} (g : S → A) : keeps f (gets g).
Proof. intros s. reflexivity. Qed.

Lemma keeps_modify (g : S → S) : (∀ s, f (g s) = f s) → keeps f (modify g).
Proof. intros H s. apply H. Qed.

Lemma keeps_bind {A B} (c : M S A) (k : A → M S B) :
  keeps f c → (∀ a, keeps f (k a)) → keeps f (bind c k).
Proof.
  intros Hc Hk s. unfold bind. specialize (Hc s).
  destruct (c s) as [[e|a] s1]; simpl in *; [exact Hc|].
  rewrite (Hk a s1). exact Hc.
Qed.

Lemma keeps_try_catch {A} (c : M S A) (h : exn → M S A) :
  keeps f c → (∀ e, keeps f (h e)) → keeps f (try_catch c h).
Proof.
  intros Hc Hh s. unfold try_catch. specialize (Hc s).
  destruct (c s) as [[e|a] s1]; simpl in *; [|exact Hc].
  rewrite (Hh e s1). exact Hc.
Qed.

Lemma keeps_for_each {A B} (g : A → M S B) xs :
  (∀ x, keeps f (g x)) → keeps f (for_each g xs).
Proof.
  intros Hg. induction xs as [|x xs IH]; simpl.
  - apply keeps_ret.
  - apply keeps_bind; [apply Hg|]. intros y.
    apply keeps_bind; [exact IH|]. intros ys. apply keeps_ret.
Qed.

(** What comes after [c] keeps [f]: then [f] is as [c] left it. *)
Lemma keeps_after {A B} (c : M S A) (k : A → M S B) :
  (∀ a, keeps f (k a)) → ∀ s, f (bind c k s).2 = f (c s).2.
Proof.
  intros Hk s. unfold bind. destruct (c s) as [[e|a] s1]; [reflexivity|]. apply Hk.
Qed.

Lemma keeps_after_try {A} (c : M S A) (h : exn → M S A) :
  (∀ e, keeps f (h e)) → ∀ s, f (try_catch c h s).2 = f (c s).2.
Proof.
  intros Hh s. unfold try_catch. destruct (c s) as [[e|a] s1]; [|reflexivity]. apply Hh.
Qed.

End Keeps.

(** Rules that apply whatever the computation looks like inside. *)
Ltac keeps_step :=
  first
    [ apply keeps_ret | apply keeps_throw | apply keeps_lift | apply keeps_gets
    | apply keeps_modify; intros; reflexivity
    | apply keeps_bind; [|intros]
    | apply keeps_try_catch; [|intros]
    | apply keeps_for_each; intros
    | match goal with
      | |- keeps _ (match ?x with _ => _ end) => destruct x
      | |- keeps _ (if ?x then _ else _) => destruct x
      | |- keeps _ (let '(_, _) := ?x in _) => destruct x
      end ].

(** ** The target date *)

Section TargetDate.

Local Abbreviation digit c := (is_digit c = true).

Lemma is_digit_range c : digit c ↔ 48 ≤ c ∧ c ≤ 57.
Proof.
unfold is_digit. rewrite andb_true_iff, !N.leb_le. reflexivity.
Qed.

Lemma digit_not_white_space c : digit c → is_white_space c = false.
Proof.
rewrite is_digit_range. intros [Hlo Hhi]. unfold is_white_space. simpl.
repeat (rewrite (proj2 (N.eqb_neq c _)) by lia; simpl). reflexivity.
Qed.

Lemma digits_spec n s g r :
digits n s = Some (g, r) ↔ s = g ++ r ∧ length g = n ∧ Forall (λ c, digit c) g.
Proof.
revert s g r. induction n as [|n IH]; intros s g r; simpl.
- split.
  + intros [= <- <-]. auto.
  + intros (-> & Hlen & _). destruct g; [reflexivity | discriminate].
- destruct s as [|c s].
  + split; [discriminate|]. intros (Hs & Hlen & _).
    destruct g; [discriminate | discriminate].
  + destruct (is_digit c) eqn:Hc.
    * destruct (digits n s) as [[g' r']|] eqn:Hd.
      -- apply IH in Hd as (-> & Hlen & Hall). split.
         ++ intros [= <- <-]. simpl. auto.
         ++ intros (Hs & Hlen' & Hall'). destruct g as [|c0 g]; [discriminate|].
            simpl in Hs. injection Hs as <- Hs. injection Hlen' as Hlen'.
            assert (Hg : g = g') by
              (apply (f_equal (take (length g))) in Hs;
               rewrite take_app_length in Hs;
               rewrite Hlen', <- Hlen, take_app_length in Hs; congruence).
            subst g'. apply app_inv_head in Hs. subst. reflexivity.
      -- split; [discriminate|]. intros (Hs & Hlen & Hall).
         destruct g as [|c0 g]; [discriminate|].
         simpl in Hs. injection Hs as <- ->. injection Hlen as Hlen.
         inversion Hall; subst.
         assert (Hsome : digits (length g) (g ++ r) = Some (g, r)) by
           (apply IH; auto).
         congruence.
    * split; [discriminate|]. intros (Hs & Hlen & Hall).
      destruct g as [|c0 g]; [discriminate|].
      simpl in Hs. injection Hs as <- ->. inversion Hall; subst. congruence.
Qed.

Lemma lit_spec c s r : lit c s = Some r ↔ s = c :: r.
Proof.
destruct s as [|c' s]; simpl.
- split; discriminate.
- destruct (N.eqb_spec c c') as [->|Hne].
  + split; [intros [= ->]; reflexivity | intros [= ->]; reflexivity].
  + split; [discriminate | intros [= -> ->]; congruence].
Qed.

Lemma match_date_spec raw dd mm yyyy :
match_date raw = Some (dd, mm, yyyy) ↔
raw = dd ++ slash :: mm ++ slash :: yyyy ∧
length dd = 2%nat ∧ length mm = 2%nat ∧ length yyyy = 4%nat ∧
Forall (λ c, digit c) (dd ++ mm ++ yyyy).
Proof.
unfold match_date. split.
- destruct (digits 2 raw) as [[dd' s1]|] eqn:H1; [|discriminate].
  destruct (lit slash s1) as [s2|] eqn:H2; [|discriminate].
  destruct (digits 2 s2) as [[mm' s3]|] eqn:H3; [|discriminate].
  destruct (lit slash s3) as [s4|] eqn:H4; [|discriminate].
  destruct (digits 4 s4) as [[yyyy' s5]|] eqn:H5; [|discriminate].
  destruct s5; [|discriminate]. intros [= <- <- <-].
  apply digits_spec in H1 as (-> & ? & ?), H3 as (-> & ? & ?), H5 as (-> & ? & ?).
  apply lit_spec in H2 as ->, H4 as ->.
  rewrite app_nil_r. repeat split; auto.
  rewrite !Forall_app. auto.
- intros (-> & Hd & Hm & Hy & Hall).
  destruct dd as [|d1 [|d2 [|]]]; try discriminate.
  destruct mm as [|m1 [|m2 [|]]]; try discriminate.
  destruct yyyy as [|y1 [|y2 [|y3 [|y4 [|]]]]]; try discriminate.
  simpl in Hall. repeat (apply Forall_cons in Hall as [? Hall]).
  unfold slash.
  repeat (simpl;
          match goal with
          | H : is_digit ?c = true |- context [is_digit ?c] => rewrite H
          end).
  reflexivity.
Qed.

Lemma ddmmyyyy_match raw iso :
ddmmyyyy raw iso ↔
∃ dd mm yyyy, match_date raw = Some (dd, mm, yyyy) ∧
              iso = yyyy ++ [hyphen] ++ mm ++ [hyphen] ++ dd.
Proof.
split.
- intros (d1 & d2 & m1 & m2 & y1 & y2 & y3 & y4 & Hall & -> & ->).
  exists [d1; d2], [m1; m2], [y1; y2; y3; y4]. split; [|reflexivity].
  repeat (apply Forall_cons in Hall as [? Hall]).
  apply match_date_spec. repeat split; auto.
  simpl. repeat constructor; assumption.
- intros (dd & mm & yyyy & Hm & ->).
  apply match_date_spec in Hm as (-> & Hd & Hm & Hy & Hall).
  destruct dd as [|d1 [|d2 [|]]]; try discriminate.
  destruct mm as [|m1 [|m2 [|]]]; try discriminate.
  destruct yyyy as [|y1 [|y2 [|y3 [|y4 [|]]]]]; try discriminate.
  exists d1, d2, m1, m2, y1, y2, y3, y4. repeat split; auto.
Qed.

Lemma str_or_nil s : str_or s [] = s.
Proof. destruct s; reflexivity. Qed.

Lemma trim_digit_ends c s c' :
digit c → digit c' → trim (c :: s ++ [c']) = c :: s ++ [c'].
Proof.
intros Hc Hc'. unfold trim, trim_end.
assert (Hrev : rev (c :: s ++ [c']) = c' :: rev (c :: s))
  by (rewrite app_comm_cons, rev_app_distr; reflexivity).
cbn [trim_start]. rewrite (digit_not_white_space c Hc), Hrev.
cbn [trim_start]. rewrite (digit_not_white_space c' Hc').
change (rev (c' :: rev (c :: s))) with (rev (rev (c :: s)) ++ [c']).
rewrite rev_involutive. reflexivity.
Qed.

End TargetDate.

Section Trim.

Local Abbreviation blank s := (Forall (λ c, is_white_space c = true) s).

Lemma trim_start_blank_app ws s : blank ws → trim_start (ws ++ s) = trim_start s.
Proof. induction 1 as [|c ws Hc _ IH]; simpl; [reflexivity|]. rewrite Hc. exact IH. Qed.

Lemma trim_end_app_blank s ws : blank ws → trim_end (s ++ ws) = trim_end s.
Proof.
intros Hws. unfold trim_end. rewrite rev_app_distr.
rewrite trim_start_blank_app by (apply Forall_rev; exact Hws). reflexivity.
Qed.

Lemma trim_app_blank s ws : blank ws → trim (s ++ ws) = trim s.
Proof.
intros Hws. unfold trim. induction s as [|c s IH]; simpl.
- rewrite <- (app_nil_r ws), trim_start_blank_app by exact Hws. reflexivity.
- destruct (is_white_space c); [exact IH|].
  apply (trim_end_app_blank (c :: s)). exact Hws.
Qed.

Lemma trim_blank_app ws s : blank ws → trim (ws ++ s) = trim s.
Proof. intros Hws. unfold trim. rewrite trim_start_blank_app by exact Hws. reflexivity. Qed.

End Trim.

(** [getTargetDateISO] and its callers, in terms of the trimmed value. *)
Lemma getTargetDateISO_trimmed (dateEl : option jsstring) :
  let raw := trim (default [] dateEl) in
  (∀ iso, getTargetDateISO dateEl = Some iso ↔ ddmmyyyy raw iso) ∧
  (getTargetDateISO dateEl = None ↔ ¬ ∃ iso, ddmmyyyy raw iso) ∧
  (∀ iso, target_date_py dateEl = iso ↔
          ddmmyyyy raw iso ∨ (iso = [] ∧ ¬ ∃ iso', ddmmyyyy raw iso')) ∧
  (∀ y1 y2 y3 y4 m1 m2 d1 d2,
     Forall (λ c, is_digit c = true) [y1; y2; y3; y4; m1; m2; d1; d2] →
     getTargetDateISO (Some [y1; y2; y3; y4; hyphen; m1; m2; hyphen; d1; d2]) = None) ∧
  (∀ value, glue_targetDate value = value).
Proof.
  intros raw.
  assert (Hsome : ∀ iso, getTargetDateISO dateEl = Some iso ↔ ddmmyyyy raw iso).
  { intros iso. rewrite ddmmyyyy_match. unfold getTargetDateISO.
    rewrite str_or_nil. fold raw.
    destruct (match_date raw) as [[[dd mm] yyyy]|].
    - split.
      + intros [= <-]. eauto.
      + intros (? & ? & ? & [= <- <- <-] & ->). reflexivity.
    - split; [discriminate|]. intros (? & ? & ? & ? & _). discriminate. }
  assert (Hnone : getTargetDateISO dateEl = None ↔ ¬ ∃ iso, ddmmyyyy raw iso).
  { destruct (getTargetDateISO dateEl) as [iso|] eqn:Hg.
    - split; [discriminate|]. intros Hno. exfalso. apply Hno.
      exists iso. apply Hsome. reflexivity.
    - split; [|reflexivity]. intros _ [iso Hiso].
      apply Hsome in Hiso. discriminate. }
  split; [exact Hsome|]. split; [exact Hnone|]. split; [|split].
  - intros iso. unfold target_date_py.
    destruct (getTargetDateISO dateEl) as [iso0|] eqn:Hg.
    + rewrite str_or_nil. split.
      * intros <-. left. apply Hsome. reflexivity.
      * intros [Hd | [_ Hno]].
        -- apply Hsome in Hd. congruence.
        -- exfalso. apply Hno. exists iso0. apply Hsome. reflexivity.
    + split.
      * intros <-. right. split; [reflexivity|]. apply Hnone. reflexivity.
      * intros [Hd | [-> _]]; [|reflexivity].
        apply Hsome in Hd. discriminate.
  - intros y1 y2 y3 y4 m1 m2 d1 d2 Hall.
    repeat (apply Forall_cons in Hall as [? Hall]).
    unfold getTargetDateISO. simpl default. rewrite str_or_nil.
    pose proof (trim_digit_ends y1 [y2; y3; y4; hyphen; m1; m2; hyphen; d1] d2) as Ht.
    cbn [app] in Ht. rewrite Ht by assumption. clear Ht.
    assert (Hlit : ∀ rest, lit slash (y3 :: rest) = None).
    { intros rest. unfold lit. destruct (N.eqb_spec slash y3) as [<-|_]; [|reflexivity].
      match goal with H : is_digit slash = true |- _ => discriminate H end. }
    unfold match_date. cbn [digits].
    repeat match goal with
           | H : is_digit ?c = true |- context [is_digit ?c] => rewrite H
           end.
    rewrite Hlit. reflexivity.
  - intros value. apply str_or_nil.
Qed.

(** The trimmed text, spelled out: what [trim] strips is white space,
    and it strips all of it at both ends. *)
Lemma trim_start_split (s : jsstring) :
  ∃ ws, Forall (λ c, is_white_space c = true) ws ∧ s = ws ++ trim_start s.
Proof.
  induction s as [|c s (ws & Hws & IH)]; simpl.
  - exists []. split; [constructor | reflexivity].
  - destruct (is_white_space c) eqn:Hc.
    + exists (c :: ws). split; [constructor; assumption|]. simpl. congruence.
    + exists []. split; [constructor | reflexivity].
Qed.

Lemma trim_split (s : jsstring) :
  ∃ before after,
    Forall (λ c, is_white_space c = true) before ∧
    Forall (λ c, is_white_space c = true) after ∧
    s = before ++ trim s ++ after.
Proof.
  destruct (trim_start_split s) as (before & Hb & Hs).
  destruct (trim_start_split (rev (trim_start s))) as (ws & Hws & Hr).
  exists before, (rev ws). split; [exact Hb|]. split; [apply Forall_rev; exact Hws|].
  unfold trim, trim_end. rewrite <- rev_app_distr, <- Hr, rev_involutive. exact Hs.
Qed.

Lemma ddmmyyyy_trim (core iso : jsstring) : ddmmyyyy core iso → trim core = core.
Proof.
  intros (d1 & d2 & m1 & m2 & y1 & y2 & y3 & y4 & Hall & -> & _).
  apply Forall_cons in Hall as [Hd1 Hall].
  assert (Hy4 : is_digit y4 = true).
  { do 6 (apply Forall_cons in Hall as [_ Hall]). apply Forall_cons in Hall as [H _].
    exact H. }
  exact (trim_digit_ends d1 [d2; slash; m1; m2; slash; y1; y2; y3] y4 Hd1 Hy4).
Qed.

Lemma padded_date_trim (value iso : jsstring) :
  padded_date value iso ↔ ddmmyyyy (trim value) iso.
Proof.
  split.
  - intros (before & core & after & -> & Hb & Ha & Hcore).
    rewrite trim_blank_app, trim_app_blank, (ddmmyyyy_trim core iso Hcore) by assumption.
    exact Hcore.
  - intros H. destruct (trim_split value) as (before & after & Hb & Ha & Hv).
    exists before, (trim value), after. auto.
Qed.

Lemma getTargetDateISO_padding (before s after : jsstring) :
  Forall (λ c, is_white_space c = true) before →
  Forall (λ c, is_white_space c = true) after →
  getTargetDateISO (Some (before ++ s ++ after)) = getTargetDateISO (Some s).
Proof.
  intros Hb Ha. unfold getTargetDateISO. cbn [default from_option id]. rewrite !str_or_nil.
  rewrite trim_blank_app, trim_app_blank by assumption. reflexivity.
Qed.

(** C9. In app.js, [getTargetDateISO] answers with the rearranged date
    YYYY-MM-DD exactly when the value of the date input is a date of the
    shape DD/MM/YYYY with nothing but white space around it, and with
    null for every other value, a date already in the form YYYY-MM-DD
    included, padded or not; the engine is then handed the rearranged
    date, or the empty string.  The glue script hands over the value of
    the input as it is. *)
Theorem getTargetDateISO_spec (dateEl : option jsstring) :
  let value := default [] dateEl in
  (∀ iso, getTargetDateISO dateEl = Some iso ↔ padded_date value iso) ∧
  (getTargetDateISO dateEl = None ↔ ¬ ∃ iso, padded_date value iso) ∧
  (∀ iso, target_date_py dateEl = iso ↔
          padded_date value iso ∨ (iso = [] ∧ ¬ ∃ iso', padded_date value iso')) ∧
  (∀ before after y1 y2 y3 y4 m1 m2 d1 d2,
     Forall (λ c, is_digit c = true) [y1; y2; y3; y4; m1; m2; d1; d2] →
     Forall (λ c, is_white_space c = true) before →
     Forall (λ c, is_white_space c = true) after →
     getTargetDateISO
       (Some (before ++ [y1; y2; y3; y4; hyphen; m1; m2; hyphen; d1; d2] ++ after))
     = None) ∧
  (∀ value, glue_targetDate value = value).
Proof.
  intros value.
  destruct (getTargetDateISO_trimmed dateEl) as (Hsome & Hnone & Hpy & Hiso & Hglue).
  fold value in Hsome, Hnone, Hpy.
  assert (Hex : (∃ iso, padded_date value iso) ↔ ∃ iso, ddmmyyyy (trim value) iso).
  { split; intros [iso H]; exists iso; apply padded_date_trim; exact H. }
  split; [|split; [|split; [|split]]].
  - intros iso. rewrite Hsome. symmetry. apply padded_date_trim.
  - rewrite Hnone, Hex. reflexivity.
  - intros iso. rewrite Hpy, Hex, padded_date_trim. reflexivity.
  - intros before after y1 y2 y3 y4 m1 m2 d1 d2 Hd Hb Ha.
    rewrite getTargetDateISO_padding by assumption. apply Hiso. exact Hd.
  - exact Hglue.
Qed.

(** ** The Python snippets *)

(** Symbolic execution of a run [H : c s = (r, s')]: unfold the monad,
    use the lookups that are known, and split on whatever the computation
    inspects next, innermost first. *)
Ltac run_known H :=
  match goal with
  | Hl : ?m !! ?k = _ |- _ =>
      match type of H with context [m !! k] => rewrite Hl in H end
  end.

Ltac run_split H :=
  match type of H with
  | context [match ?x with _ => _ end] =>
      lazymatch x with
      | context [match _ with _ => _ end] => fail
      | _ => destruct x eqn:?
      end
  end.

(** Projections of the states met their setters. *)
Ltac proj_in H :=
  cbn [fst snd
       rt_fs rt_modules rt_globals rt_executed rt_calls
       set_fs set_modules set_globals note_executed note_call fresh_runtime
       App.SETTINGS App.pyodide App.fileInput App.dateEl App.logEl App.alerts
       App.console App.clock
       App.set_SETTINGS App.set_pyodide App.set_log App.add_alert App.add_console
       App.select
       Glue.pyodidePromise Glue.fileInput Glue.targetDate Glue.status Glue.badge
       Glue.summary Glue.vet Glue.swaps Glue.audit Glue.alerts Glue.console Glue.clock
       Glue.set_promise Glue.set_status Glue.set_badge Glue.set_summary Glue.set_vet
       Glue.set_swaps Glue.set_audit Glue.add_alert Glue.add_console Glue.tick
       JSON_parse default] in H.

Ltac proj_goal :=
  cbn [fst snd
       rt_fs rt_modules rt_globals rt_executed rt_calls
       set_fs set_modules set_globals note_executed note_call fresh_runtime
       App.SETTINGS App.pyodide App.fileInput App.dateEl App.logEl App.alerts
       App.console App.clock
       App.set_SETTINGS App.set_pyodide App.set_log App.add_alert App.add_console
       App.select
       Glue.pyodidePromise Glue.fileInput Glue.targetDate Glue.status Glue.badge
       Glue.summary Glue.vet Glue.swaps Glue.audit Glue.alerts Glue.console Glue.clock
       Glue.set_promise Glue.set_status Glue.set_badge Glue.set_summary Glue.set_vet
       Glue.set_swaps Glue.set_audit Glue.add_alert Glue.add_console Glue.tick
       JSON_parse default].

Ltac run_in H :=
  cbv beta iota delta [bind ret throw lift gets modify try_catch] in H;
  repeat (proj_in H;
          first [ rewrite lookup_insert_eq in H
                | rewrite lookup_insert_ne in H by done
                | run_known H
                | run_split H ]);
  proj_in H; simplify_eq.

Arguments Glue.pyCode : simpl never.
Arguments App.pyCode : simpl never.
Arguments App.filesToPyTuples : simpl never.
Arguments find_module : simpl never.
Arguments json_dumps : simpl never.
Arguments utf8_encode : simpl never.
Arguments js : simpl never.
Arguments to_string : simpl never.
Arguments target_date_py : simpl never.
Arguments str_or : simpl never.
Arguments glue_targetDate : simpl never.
Arguments get_prop : simpl never.
Arguments truthy : simpl never.

Lemma json_roundtrip v j : inr j = json_dumps v → JSON_parse j = v.
Proof.
  unfold json_dumps. destruct (json_serializable v); [|discriminate].
  intros [= ->]. reflexivity.
Qed.

(** What the Python of the glue script does with the three globals the
    page has set: it raises before it reaches the engine, or it calls
    [build_all] once, on the file map, the settings and the target date,
    in that order, and serialises what the call returned. *)
Lemma glue_pyCode_spec (now : jsstring) (rt : Runtime) (a1 a2 : value) (a3 : jsstring)
    (r : exn + json_text) (rt' : Runtime) :
  rt_globals rt !! "JS_FILE_MAP" = Some (PyVal a1) →
  rt_globals rt !! "JS_SETTINGS" = Some (PyVal a2) →
  rt_globals rt !! "JS_TARGET_DATE" = Some (PyVal (VStr a3)) →
  Glue.pyCode now rt = (r, rt') →
  (rt_calls rt' = rt_calls rt ∧ ∃ e, r = inl e) ∨
  (∃ out, rt_calls rt' = rt_calls rt ++ [([a1; a2; VStr a3], out)] ∧
          r = match out with inl e => inl e | inr v => json_dumps v end).
Proof.
  intros H1 H2 H3 Hrun.
  unfold Glue.pyCode, py_name, py_data, py_call, Glue.to_py in Hrun.
  run_in Hrun.
  all: try (left; split; [reflexivity | eauto]; fail).
  all: right; eexists; split; [reflexivity|]; reflexivity.
Qed.

(** [buildData]: it fails before the engine is reached and the trace of
    calls is as it was, or the engine is called once, on the map of the
    selected files, the settings document and the value of the date
    input, in that order; the data it returns is what that call
    returned. *)
Lemma glue_buildData_spec (env : Env) (files : list File) (st st' : Glue.State)
    (r : exn + value) :
  Glue.buildData env files st = (r, st') →
  (Glue.calls st' = Glue.calls st ∧ ∃ e, r = inl e) ∨
  (∃ fileMap resp settings out,
      Glue.fill_fileMap files [] = inr fileMap ∧
      env_fetch_settings env = inr resp ∧ resp_json resp = inr settings ∧
      Glue.calls st' = Glue.calls st
        ++ [([VDict fileMap; settings; VStr (glue_targetDate (Glue.targetDate st))], out)] ∧
      ∀ data, r = inr data → out = inr data).
Proof.
  intros Hrun. unfold Glue.calls.
  unfold Glue.buildData, Glue.ensurePyodide, Glue.loadEngine, Glue.readSettings,
    Glue.with_py, Glue.run_source, Glue.read_clock, globals_set in Hrun.
  run_in Hrun.
  all: proj_goal.
  all: repeat match goal with
              | H : Glue.pyodidePromise _ = _ |- _ => rewrite H
              end.
  all: try (left; split; [reflexivity | eauto]; fail).
  all: match goal with
       | Hpy : Glue.pyCode _ _ = _ |- _ =>
           eapply glue_pyCode_spec in Hpy; [|proj_goal; by simplify_map_eq ..];
           proj_in Hpy;
           destruct Hpy as [[Hc [e' He']] | (out & Hc & Hr)]; rewrite Hc
       end.
  all: try discriminate.
  all: try (left; split; [reflexivity | eauto]; fail).
  all: right; eexists _, _, _, out; repeat split; try eassumption; try reflexivity.
  all: intros data Hdata; try discriminate.
  all: destruct out as [?|?]; [discriminate|].
  all: apply json_roundtrip in Hr; congruence.
Qed.

(** The dict that app.js serialises: the engine's, with two more fields. *)
Lemma app_pyCode_spec (env : Env) (now : jsstring) (rt : Runtime) (a1 a2 a3 : value)
    (r : exn + json_text) (rt' : Runtime) :
  rt_globals rt !! "files_py" = Some (PyVal a1) →
  rt_globals rt !! "target_date_py" = Some (PyVal a2) →
  rt_globals rt !! "settings_py" = Some (PyVal a3) →
  App.pyCode env now rt = (r, rt') →
  rt_fs rt' = rt_fs rt ∧
  (rt_executed rt' = rt_executed rt ∧ rt_calls rt' = rt_calls rt
     ∧ find_module (env_sys_path env) (rt_fs rt) App.modname = None
     ∧ r = inl ModuleNotFoundError
   ∨ ∃ src, find_module (env_sys_path env) (rt_fs rt) App.modname = Some src
            ∧ rt_executed rt' = rt_executed rt ++ [src]) ∧
  ((rt_calls rt' = rt_calls rt ∧ ∃ e, r = inl e) ∨
   (∃ out, rt_calls rt' = rt_calls rt ++ [([a1; a2; a3], out)] ∧
      match out with
      | inl e => r = inl e
      | inr (VDict d) =>
          let d1 := dict_set d (js "engine_loaded") (VBool true) in
          r = json_dumps
                (VDict (dict_set d1 (js "engine_version")
                          (default (VStr (js "<unknown>"))
                             (dict_get d1 (js "engine_version")))))
      | inr _ => ∃ e, r = inl e
      end)).
Proof.
  intros H1 H2 H3 Hrun.
  unfold App.pyCode, py_reload, py_first_import, py_name, py_data, py_call,
    globals_set in Hrun.
  run_in Hrun.
  all: proj_goal; split; [reflexivity|split].
  all: first
    [ solve [left; repeat split; first [reflexivity | eexists; reflexivity]]
    | solve [right; eexists; split;
             [reflexivity | first [reflexivity | eexists; reflexivity]]] ].
Qed.

(** ** app.js, step by step *)

Lemma with_pyodide_ret {A} (member : string) (x : A) (st : App.State) :
  App.with_pyodide member (λ rt, (inr x, rt)) st
  = (match App.pyodide st with
     | Some _ => inr x
     | None => inl (null_read member)
     end, st).
Proof. destruct st as [? [rt|] ? ? ? ? ? ?]; reflexivity. Qed.

(** Reading the files changes nothing on the page; it yields one pair per
    selected file, and fails only for want of the runtime or of a file
    that can be read. *)
Lemma filesToPyTuples_spec (files : list File) (st st' : App.State) (r : exn + value) :
  App.filesToPyTuples files st = (r, st') →
  st' = st ∧
  match r with
  | inl _ => App.readable files = false ∨ App.pyodide st = None
  | inr v => ∃ tuples, v = VList tuples ∧ length tuples = length files
                       ∧ App.readable files = true ∧ is_Some (App.pyodide st)
  end.
Proof.
  unfold App.filesToPyTuples.
  set (g := λ f : File,
         bind (lift (file_bytes f)) (λ buf,
         bind (App.with_pyodide "toPy" (ret (VBytes buf))) (λ pyBytes,
         ret (S := App.State) (VList [VStr (file_name f); pyBytes])))).
  assert (Hloop : ∀ fs rs s', for_each g fs st = (rs, s') →
            s' = st ∧
            match rs with
            | inl _ => App.readable fs = false ∨ App.pyodide st = None
            | inr ts => length ts = length fs ∧ App.readable fs = true
            end).
  { induction fs as [|f fs IH]; intros rs s' Hfs.
    - injection Hfs as <- <-. split; [reflexivity|]. split; reflexivity.
    - cbn [for_each] in Hfs. unfold g at 1 in Hfs.
      cbv beta iota delta [bind ret lift] in Hfs.
      unfold App.readable. cbn [forallb]. fold (App.readable fs).
      destruct (file_bytes f) as [e|buf]; [simplify_eq; split; [done|]; by left|].
      rewrite with_pyodide_ret in Hfs.
      destruct (App.pyodide st) eqn:Hpy; [|simplify_eq; split; [done|]; by right].
      destruct (for_each g fs st) as [[e|ts] s1] eqn:Hrest.
      + destruct (IH _ _ eq_refl) as [-> Hr]. simplify_eq. split; [done|].
        destruct Hr as [Hr|Hr]; [by left | congruence].
      + destruct (IH _ _ eq_refl) as [-> [Hlen Hr]]. simplify_eq. split; [done|].
        split; [simpl; congruence | exact Hr]. }
  intros Hrun. cbv beta iota delta [bind ret] in Hrun.
  destruct (for_each g files st) as [[e|ts] s1] eqn:Hfs.
  - destruct (Hloop _ _ _ Hfs) as [-> Hr]. simplify_eq. split; [done|]. exact Hr.
  - destruct (Hloop _ _ _ Hfs) as [-> [Hlen Hr]]. rewrite with_pyodide_ret in Hrun.
    destruct (App.pyodide st) eqn:Hpy; simplify_eq; (split; [done|]).
    + eexists. repeat split; eauto.
    + by right.
Qed.

(** One run of the body of the click handler, as far as the runtime is
    concerned. *)
Lemma app_build_spec (env : Env) (st st' : App.State) (r : exn + option value) :
  App.build env st = (r, st') →
  let files := default [] (App.fileInput st) in
  (App.pyodide st' = App.pyodide st ∧ (∀ x, r ≠ inr (Some x))
     ∧ App.reaches_python st = false) ∨
  (∃ rt rt' tuples,
      App.pyodide st = Some rt ∧ App.pyodide st' = Some rt' ∧
      App.reaches_python st = true ∧
      files ≠ [] ∧ length tuples = length files ∧
      rt_fs rt' = rt_fs rt ∧
      (rt_executed rt' = rt_executed rt ∧ rt_calls rt' = rt_calls rt
         ∧ find_module (env_sys_path env) (rt_fs rt) App.modname = None
       ∨ ∃ src, find_module (env_sys_path env) (rt_fs rt) App.modname = Some src
                ∧ rt_executed rt' = rt_executed rt ++ [src]) ∧
      ((rt_calls rt' = rt_calls rt ∧ ∃ e, r = inl e) ∨
       (∃ out,
          rt_calls rt' = rt_calls rt
            ++ [([VList tuples; VStr (target_date_py (App.dateEl st));
                  App.settings_py (App.SETTINGS st)], out)] ∧
          ∀ result, r = inr (Some result) →
            ∃ d, out = inr (VDict d) ∧
                 let d1 := dict_set d (js "engine_loaded") (VBool true) in
                 result = VDict (dict_set d1 (js "engine_version")
                                   (default (VStr (js "<unknown>"))
                                      (dict_get d1 (js "engine_version"))))))).
Proof.
  intros Hrun files. subst files.
  unfold App.build, App.alert, App.log, App.with_pyodide, globals_set in Hrun.
  run_in Hrun.
  all: repeat match goal with
              | H : App.filesToPyTuples _ _ = _ |- _ =>
                  apply filesToPyTuples_spec in H as [-> Htup]
              end.
  all: proj_goal.
  all: unfold App.reaches_python, App.selection_readable.
  all: repeat match goal with
              | H : App.pyodide _ = _ |- _ => rewrite H
              | H : default [] (App.fileInput _) = _ |- _ => rewrite H
              end.
  all: try (left; split; [reflexivity|]; split; [intros; discriminate|];
            first [ reflexivity
                  | destruct (App.pyodide st); reflexivity
                  | destruct Htup as [Hr|Hr]; rewrite Hr;
                    destruct (App.pyodide st); reflexivity ]; fail).
  all: destruct Htup as (tuples & ? & Hlen & Hread & _); simplify_eq.
  all: match goal with
       | Hpy : App.pyCode _ _ _ = _ |- _ =>
           eapply app_pyCode_spec in Hpy; [|proj_goal; by simplify_map_eq ..];
           proj_in Hpy; destruct Hpy as (Hfs & Hexec & Hcalls)
       end.
  all: right; exists r0, r1, tuples.
  all: split; [reflexivity|]; split; [reflexivity|]; split; [assumption|].
  all: split; [discriminate|].
  all: split; [assumption|]; split; [assumption|]; split.
  all: try (destruct Hexec as [(? & ? & ? & _)|?]; [left; auto | right; assumption]).
  all: destruct Hcalls as [[Hc [e' He']] | (out & Hc & Hout)];
         [ first [discriminate He' | left; split; [assumption | eauto]]
         | right; exists out; split; [assumption|] ].
  all: intros result Hres; try discriminate Hres.
  all: injection Hres as <-.
  all: destruct out as [?|[]]; try discriminate Hout;
         try match type of Hout with
             | ex _ => destruct Hout as [? Hout]; discriminate Hout
             end.
  all: eexists; split; [reflexivity|].
  all: apply json_roundtrip in Hout; exact Hout.
Qed.

(** What a failed run of the body leaves of the page. *)
Lemma app_build_failure (env : Env) (st st1 : App.State) (e : exn) :
  App.build env st = (inl e, st1) →
  App.alerts st1 = App.alerts st ∧ App.console st1 = App.console st.
Proof.
  intros Hrun.
  unfold App.build, App.alert, App.log, App.with_pyodide, globals_set in Hrun.
  run_in Hrun.
  all: repeat match goal with
              | H : App.filesToPyTuples _ _ = _ |- _ =>
                  apply filesToPyTuples_spec in H as [-> _]
              end.
  all: proj_goal; split; reflexivity.
Qed.

(** The [catch] does not touch the runtime. *)
Lemma app_click_runtime (env : Env) (st : App.State) :
  App.pyodide (App.click env st).2 = App.pyodide (App.build env st).2.
Proof.
  unfold App.click, try_catch. destruct (App.build env st) as [[e|x] s1]; [|reflexivity].
  unfold App.on_error, App.alert, App.log.
  cbv beta iota delta [bind ret modify]. proj_goal.
  destruct (App.logEl s1); reflexivity.
Qed.

(** ** The glue script, step by step *)

Section GlueKeeps.
Context {X : Type} (f : Glue.State → X).
Hypothesis f_region :
  ∀ h s, f (Glue.set_summary h s) = f s ∧ f (Glue.set_vet h s) = f s ∧
         f (Glue.set_swaps h s) = f s ∧ f (Glue.set_audit h s) = f s.

Lemma keeps_array_map {A} callee (g : value → exn + A) arr :
keeps f (Glue.array_map callee g arr).
Proof. unfold Glue.array_map. repeat keeps_step. Qed.

Lemma keeps_renderSummaryBlock v : keeps f (Glue.renderSummaryBlock v).
Proof.
  unfold Glue.renderSummaryBlock. repeat keeps_step.
  apply keeps_modify. intros; apply f_region.
Qed.

Lemma keeps_renderVetBlock v : keeps f (Glue.renderVetBlock v).
Proof.
  unfold Glue.renderVetBlock.
  apply keeps_bind; [apply keeps_lift|]; intros.
  apply keeps_bind; [apply keeps_array_map|]; intros.
  apply keeps_modify. intros; apply f_region.
Qed.

Lemma keeps_swap_block t arr : keeps f (Glue.swap_block t arr).
Proof.
  unfold Glue.swap_block.
  apply keeps_bind; [apply keeps_array_map|]; intros. apply keeps_ret.
Qed.

Lemma keeps_renderSwapsBlock v : keeps f (Glue.renderSwapsBlock v).
Proof.
  unfold Glue.renderSwapsBlock.
  repeat (apply keeps_bind; [first [apply keeps_lift | apply keeps_swap_block]|]; intros).
  apply keeps_modify. intros; apply f_region.
Qed.

Lemma keeps_renderAuditBlock : keeps f Glue.renderAuditBlock.
Proof. apply keeps_modify. intros; apply f_region. Qed.
End GlueKeeps.

(** What [buildData] leaves of the page: the report regions, the alerts
    and the console always, the badge whenever it fails. *)
Lemma glue_buildData_frame (env : Env) (files : list File) (st st1 : Glue.State)
    (r : exn + value) :
  Glue.buildData env files st = (r, st1) →
  Glue.summary st1 = Glue.summary st ∧ Glue.vet st1 = Glue.vet st ∧
  Glue.swaps st1 = Glue.swaps st ∧ Glue.audit st1 = Glue.audit st ∧
  Glue.console st1 = Glue.console st ∧ Glue.alerts st1 = Glue.alerts st ∧
  (∀ e, r = inl e → Glue.badge st1 = Glue.badge st).
Proof.
  intros Hrun.
  unfold Glue.buildData, Glue.ensurePyodide, Glue.loadEngine, Glue.readSettings,
    Glue.with_py, Glue.run_source, Glue.read_clock, globals_set in Hrun.
  run_in Hrun.
  all: proj_goal; repeat split; try reflexivity; intros; discriminate.
Qed.

(** The click handler after a failed [buildData]: only the [catch] runs. *)
Lemma glue_click_failure (env : Env) (st st1 : Glue.State) (f : File) (fs : list File)
    (e : exn) :
  Glue.fileInput st = f :: fs →
  Glue.buildData env (f :: fs) st = (inl e, st1) →
  Glue.click env st
  = (inr tt, Glue.set_status (js "Error: " ++ exn_to_string e) (Glue.add_console e st1)).
Proof.
  intros Hfiles Hrun. unfold Glue.click, Glue.build_and_render, Glue.on_error.
  cbv beta iota delta [bind gets try_catch modify]. rewrite Hfiles.
  cbv beta iota. rewrite Hrun. reflexivity.
Qed.

(** Rendering and the [catch] leave the runtime alone. *)
Lemma glue_click_runtime (env : Env) (st : Glue.State) (f : File) (fs : list File) :
  Glue.fileInput st = f :: fs →
  Glue.pyodidePromise (Glue.click env st).2
  = Glue.pyodidePromise (Glue.buildData env (f :: fs) st).2.
Proof.
  intros Hfiles.
  assert (Hreg : ∀ h s,
    Glue.pyodidePromise (Glue.set_summary h s) = Glue.pyodidePromise s ∧
    Glue.pyodidePromise (Glue.set_vet h s) = Glue.pyodidePromise s ∧
    Glue.pyodidePromise (Glue.set_swaps h s) = Glue.pyodidePromise s ∧
    Glue.pyodidePromise (Glue.set_audit h s) = Glue.pyodidePromise s) by done.
  transitivity (Glue.pyodidePromise
                  (try_catch (Glue.build_and_render env (f :: fs)) Glue.on_error st).2).
  { unfold Glue.click. cbv beta iota delta [bind gets]. rewrite Hfiles. reflexivity. }
  rewrite keeps_after_try by (intros; unfold Glue.on_error; repeat keeps_step).
  unfold Glue.build_and_render. apply keeps_after. intros data.
  repeat (apply keeps_bind;
          [first [ apply keeps_lift | by apply keeps_renderSummaryBlock
                 | by apply keeps_renderVetBlock | by apply keeps_renderSwapsBlock ]|];
          intros).
  by apply keeps_renderAuditBlock.
Qed.

(** ** The two call sites *)

Lemma app_click_calls (env : Env) (st : App.State) :
  App.calls (App.click env st).2 = App.calls (App.build env st).2.
Proof. unfold App.calls. rewrite app_click_runtime. reflexivity. Qed.

(** A click that returns a result is a run of the body that returned it. *)
Lemma app_click_result (env : Env) (st : App.State) (x : value) :
  (App.click env st).1 = inr (Some x) → (App.build env st).1 = inr (Some x).
Proof.
  unfold App.click, try_catch. destruct (App.build env st) as [[e|o] s1]; [|auto].
  unfold App.on_error, App.alert, App.log. cbv beta iota delta [bind ret modify].
  proj_goal. destruct (App.logEl s1); discriminate.
Qed.

Lemma glue_click_no_files (env : Env) (st : Glue.State) :
  Glue.fileInput st = [] →
  Glue.click env st
  = (inr tt, Glue.add_alert (js "Please select your daily CSVs first.") st).
Proof.
  intros H. unfold Glue.click. cbv beta iota delta [bind gets modify]. rewrite H.
  reflexivity.
Qed.

Lemma glue_click_calls (env : Env) (st : Glue.State) :
  Glue.fileInput st ≠ [] ∧
    Glue.calls (Glue.click env st).2
    = Glue.calls (Glue.buildData env (Glue.fileInput st) st).2
  ∨ Glue.fileInput st = [] ∧ Glue.calls (Glue.click env st).2 = Glue.calls st.
Proof.
  destruct (Glue.fileInput st) as [|f fs] eqn:Hfiles.
  - right. split; [reflexivity|]. rewrite glue_click_no_files by assumption. reflexivity.
  - left. split; [discriminate|].
    unfold Glue.calls. rewrite (glue_click_runtime env st f fs Hfiles). reflexivity.
Qed.

(** C1, as the claim states it, fails: app.js hands the engine the target
    date second and the settings last. *)
Lemma app_call_order_differs :
  let st := Sample.app_deployed Sample.env in
  let st' := (App.click Sample.env st).2 in
  map fst (App.calls st')
  = [ [ VList [ VList [ VStr (js "roster.csv"); VBytes (utf8_encode (js "eid,dept_id")) ] ];
        VStr (js "2025-10-04");
        Sample.settings_json ] ]
  ∧ ¬ ∃ files, map fst (App.calls st')
               = [ [ files; App.settings_py (App.SETTINGS st);
                     VStr (target_date_py (App.dateEl st)) ] ].
Proof.
  split; [vm_compute; reflexivity|].
  intros [files H]. vm_compute in H. discriminate H.
Qed.

(** C1, amended. Whenever a click reaches the engine, the engine entry
    point is called once with three positional arguments: by the glue
    script with the file map, the settings and the target date, in this
    order; by app.js with the list of files, the target date and the
    settings, in this order. *)
Theorem engine_call_arguments (env : Env) (stA : App.State) (stG : Glue.State) :
  (let st' := (App.click env stA).2 in
   App.calls st' = App.calls stA ∨
   ∃ tuples out,
     length tuples = length (default [] (App.fileInput stA)) ∧
     App.calls st' = App.calls stA
       ++ [([VList tuples; VStr (target_date_py (App.dateEl stA));
             App.settings_py (App.SETTINGS stA)], out)]) ∧
  (let st' := (Glue.click env stG).2 in
   Glue.calls st' = Glue.calls stG ∨
   ∃ fileMap settings out,
     Glue.fill_fileMap (Glue.fileInput stG) [] = inr fileMap ∧
     settings_document env = Some settings ∧
     Glue.calls st' = Glue.calls stG
       ++ [([VDict fileMap; settings; VStr (glue_targetDate (Glue.targetDate stG))], out)]).
Proof.
  split.
  - intros st'. subst st'. rewrite app_click_calls.
    destruct (App.build env stA) as [r st1] eqn:Hrun.
    apply app_build_spec in Hrun.
    destruct Hrun as [(Hpy & _) | (rt & rt' & tuples & Hrt & Hrt' & _ & _ & Hlen & _ & _ & Hc)];
      unfold App.calls; cbn [snd].
    + left. rewrite Hpy. reflexivity.
    + rewrite Hrt, Hrt'. destruct Hc as [[Hc _] | (out & Hc & _)].
      * left. exact Hc.
      * right. exists tuples, out. split; assumption.
  - intros st'. subst st'. destruct (glue_click_calls env stG) as [[_ Hc] | [_ Hc]].
    + rewrite Hc. destruct (Glue.buildData env (Glue.fileInput stG) stG) as [r st1] eqn:Hrun.
      apply glue_buildData_spec in Hrun. cbn [snd].
      destruct Hrun as [[Hsame _] | (fileMap & resp & settings & out & Hf & Hs & Hj & Hcalls & _)].
      * left. exact Hsame.
      * right. exists fileMap, settings, out. split; [exact Hf|]. split; [|exact Hcalls].
        unfold settings_document. rewrite Hs, Hj. reflexivity.
    + left. exact Hc.
Qed.

(** ** The fields of the result *)

Lemma dict_keys_set (d : list (jsstring * value)) (k : jsstring) (v : value) (k' : jsstring) :
  k' ∈ dict_keys (dict_set d k v) ↔ k' ∈ dict_keys d ∨ k' = k.
Proof.
  unfold dict_keys. induction d as [|[k0 v0] d IH]; simpl.
  - rewrite list_elem_of_singleton. split; [auto|]. intros [H|H]; [|exact H].
    by apply elem_of_nil in H.
  - destruct (decide (k = k0)) as [->|Hne]; simpl.
    + rewrite !elem_of_cons. tauto.
    + rewrite !elem_of_cons, IH. tauto.
Qed.

Lemma dict_get_set_eq (d : list (jsstring * value)) (k : jsstring) (v : value) :
  dict_get (dict_set d k v) k = Some v.
Proof.
  induction d as [|[k0 v0] d IH]; simpl.
  - rewrite decide_True by reflexivity. reflexivity.
  - destruct (decide (k = k0)) as [->|Hne]; simpl.
    + rewrite decide_True by reflexivity. reflexivity.
    + rewrite decide_False by assumption. exact IH.
Qed.

Lemma dict_get_set_ne (d : list (jsstring * value)) (k k' : jsstring) (v : value) :
  k ≠ k' → dict_get (dict_set d k v) k' = dict_get d k'.
Proof.
  intros Hne. induction d as [|[k0 v0] d IH]; simpl.
  - rewrite decide_False by congruence. reflexivity.
  - destruct (decide (k = k0)) as [->|Hne0]; simpl.
    + rewrite !decide_False by congruence. reflexivity.
    + destruct (decide (k' = k0)); [reflexivity | exact IH].
Qed.

(** C2, as the claim states it, fails: what app.js hands on has seven
    top-level fields when the engine returned the five. *)
Lemma app_result_has_extra_fields :
  let run := App.click Sample.env (Sample.app_deployed Sample.env) in
  (∃ args d, App.calls run.2 = [(args, inr (VDict d))] ∧
     dict_keys d = map js ["generated_at"; "dept_summary"; "presence_map";
                           "vet_vto"; "swaps"]%string) ∧
  (∃ d', run.1 = inr (Some (VDict d')) ∧
     dict_keys d' = map js ["generated_at"; "dept_summary"; "presence_map";
                            "vet_vto"; "swaps"; "engine_loaded";
                            "engine_version"]%string).
Proof.
  split.
  - eexists _, _. split; vm_compute; reflexivity.
  - eexists. split; vm_compute; reflexivity.
Qed.

(** C2, amended. In the glue script the structure the renderers read is
    the one the engine returned, with no field added or removed; in app.js
    the structure handed on is the dict the engine returned with the two
    fields engine_loaded and engine_version set on top of the engine's
    own. *)
Theorem result_fields (env : Env) (stA : App.State) (stG : Glue.State)
    (files : list File) :
  (∀ result, (App.click env stA).1 = inr (Some result) →
     ∃ args d d',
       App.calls (App.click env stA).2 = App.calls stA ++ [(args, inr (VDict d))] ∧
       result = VDict d' ∧
       dict_get d' (js "engine_loaded") = Some (VBool true) ∧
       ∀ k, k ∈ dict_keys d' ↔
            k ∈ dict_keys d ∨ k = js "engine_loaded" ∨ k = js "engine_version") ∧
  (∀ data, (Glue.buildData env files stG).1 = inr data →
     ∃ args,
       Glue.calls (Glue.buildData env files stG).2 = Glue.calls stG ++ [(args, inr data)]).
Proof.
  split.
  - intros result Hres. apply app_click_result in Hres.
    rewrite app_click_calls.
    destruct (App.build env stA) as [r st1] eqn:Hrun. cbn [fst snd] in *. subst r.
    apply app_build_spec in Hrun.
    destruct Hrun as [(_ & Hno & _) | (rt & rt' & tuples & Hrt & Hrt' & _ & _ & _ & _ & _ & Hc)].
    + exfalso. eapply Hno. reflexivity.
    + destruct Hc as [[_ [e He]] | (out & Hc & Hout)]; [discriminate|].
      destruct (Hout _ eq_refl) as (d & -> & Hd).
      eexists _, d, _. unfold App.calls. rewrite Hrt, Hrt'.
      split; [exact Hc|]. split; [exact Hd|]. split.
      * rewrite dict_get_set_ne by (vm_compute; discriminate).
        apply dict_get_set_eq.
      * intros k. rewrite !dict_keys_set. tauto.
  - intros data Hdata.
    destruct (Glue.buildData env files stG) as [r st1] eqn:Hrun. cbn [fst snd] in *. subst r.
    apply glue_buildData_spec in Hrun.
    destruct Hrun as [[_ [e He]] | (fileMap & resp & settings & out & _ & _ & _ & Hcalls & Hout)];
      [discriminate|].
    rewrite (Hout _ eq_refl) in Hcalls. eauto.
Qed.

Lemma result_fields_witness :
  (∃ result,
     (App.click Sample.env (Sample.app_deployed Sample.env)).1 = inr (Some result) ∧
     ∃ d', result = VDict d' ∧ dict_get d' (js "engine_loaded") = Some (VBool true)) ∧
  (∃ data args,
     (Glue.buildData Sample.env [Sample.csv] Sample.glue_start).1 = inr data ∧
     Glue.calls (Glue.buildData Sample.env [Sample.csv] Sample.glue_start).2
     = Glue.calls Sample.glue_start ++ [(args, inr data)]).
Proof.
  split.
  - assert (Hres : ∃ result,
              (App.click Sample.env (Sample.app_deployed Sample.env)).1
              = inr (Some result)) by (eexists; vm_compute; reflexivity).
    destruct Hres as [result Hres]. exists result. split; [exact Hres|].
    destruct (proj1 (result_fields Sample.env (Sample.app_deployed Sample.env)
                       Sample.glue_start [Sample.csv]) result Hres)
      as (args & d & d' & _ & Hr & Hl & _).
    exists d'. split; assumption.
  - assert (Hres : ∃ data,
              (Glue.buildData Sample.env [Sample.csv] Sample.glue_start).1 = inr data)
      by (eexists; vm_compute; reflexivity).
    destruct Hres as [data Hres].
    destruct (proj2 (result_fields Sample.env (Sample.app_deployed Sample.env)
                       Sample.glue_start [Sample.csv]) data Hres) as [args Hcalls].
    exists data, args. split; assumption.
Defined.

(** ** The settings document *)

(** The boot of app.js: without a runtime it stops; with one, the settings
    variable takes the document when the fetch answered [ok] with JSON and
    stays as it was otherwise, and the engine file holds the placeholder. *)
Lemma app_boot_spec (env : Env) (st st' : App.State) (r : exn + unit) :
  App.boot env st = (r, st') →
  match env_loadPyodide env with
  | inl e => r = inl e ∧ App.pyodide st' = App.pyodide st
             ∧ App.SETTINGS st' = App.SETTINGS st
  | inr fs0 =>
      r = inr tt ∧
      App.pyodide st'
      = Some (set_fs (insert App.engine_path (utf8_encode App.placeholder))
                (fresh_runtime fs0)) ∧
      App.SETTINGS st'
      = match env_fetch_settings env with
        | inr resp =>
            if resp_ok resp
            then match resp_json resp with inr v => v | inl _ => App.SETTINGS st end
            else App.SETTINGS st
        | inl _ => App.SETTINGS st
        end
  end.
Proof.
  intros Hrun.
  unfold App.boot, App.load_settings, App.log, App.with_pyodide in Hrun.
  run_in Hrun.
  all: proj_goal; repeat split; reflexivity.
Qed.

(** The sibling of the glue script does fall back: when app.js could not
    load the document, the settings argument of the call is [None]. *)
Lemma app_settings_fallback (env : Env) (st : App.State) :
  settings_document env = None →
  App.SETTINGS st = VNull →
  App.settings_py (App.SETTINGS (App.boot env st).2) = VNull.
Proof.
  intros Hdoc Hnull. destruct (App.boot env st) as [r st'] eqn:Hrun.
  apply app_boot_spec in Hrun. cbn [snd]. unfold settings_document in Hdoc.
  destruct (env_loadPyodide env) as [e|fs0].
  - destruct Hrun as (_ & _ & ->). rewrite Hnull. reflexivity.
  - destruct Hrun as (_ & _ & ->).
    destruct (env_fetch_settings env) as [e|resp]; [rewrite Hnull; reflexivity|].
    destruct (resp_json resp); [|discriminate].
    destruct (resp_ok resp); rewrite Hnull; reflexivity.
Qed.

(** C4. In the glue script the claim does not hold: when settings.json
    cannot be fetched or parsed, the click ends in the [catch] with the
    error in the status line, and the engine has not been called. *)
Theorem glue_build_needs_settings (env : Env) (st : Glue.State) (f : File)
    (fs : list File) :
  Glue.fileInput st = f :: fs →
  settings_document env = None →
  let st' := (Glue.click env st).2 in
  Glue.calls st' = Glue.calls st ∧
  ∃ e, Glue.console st' = Glue.console st ++ [e] ∧
       Glue.status st' = js "Error: " ++ exn_to_string e.
Proof.
  intros Hfiles Hdoc st'. subst st'.
  destruct (Glue.buildData env (f :: fs) st) as [r st1] eqn:Hrun.
  pose proof (glue_buildData_frame _ _ _ _ _ Hrun) as (_ & _ & _ & _ & Hcons & _).
  pose proof (glue_buildData_spec _ _ _ _ _ Hrun)
    as [[Hsame [e ->]] | (fileMap & resp & settings & out & _ & Hs & Hj & _)].
  - rewrite (glue_click_failure env st st1 f fs e Hfiles Hrun). cbn [snd].
    split.
    + unfold Glue.calls in *. proj_goal. exact Hsame.
    + exists e. proj_goal. rewrite Hcons. split; reflexivity.
  - unfold settings_document in Hdoc. rewrite Hs, Hj in Hdoc. discriminate.
Qed.

Lemma glue_build_needs_settings_witness :
  Glue.fileInput Sample.glue_start = [Sample.csv] ∧
  settings_document Sample.offline = None ∧
  Glue.calls (Glue.click Sample.offline Sample.glue_start).2
  = Glue.calls Sample.glue_start.
Proof.
  split; [reflexivity|]. split; [reflexivity|].
  exact (proj1 (glue_build_needs_settings Sample.offline Sample.glue_start Sample.csv []
                  eq_refl eq_refl)).
Defined.

(** ** A failed build *)


(** ** How many files *)

Lemma app_click_no_files (env : Env) (st : App.State) :
  default [] (App.fileInput st) = [] →
  App.click env st = (inr None, App.add_alert (js "Select your 6 CSVs first.") st).
Proof.
  intros H. unfold App.click, try_catch, App.build, App.alert.
  cbv beta iota delta [bind gets modify ret]. rewrite H. reflexivity.
Qed.






(** ** Padding of the date input *)

(** X1. White space around the typed date does not matter: spaces, tabs,
    line breaks and the other characters [trim] strips, before and after
    the text of the date input, leave the ISO date (or its absence) and
    the argument handed to Python as they are without them. *)
Theorem target_date_ignores_padding (before s after : jsstring) :
  Forall (λ c, is_white_space c = true) before →
  Forall (λ c, is_white_space c = true) after →
  getTargetDateISO (Some (before ++ s ++ after)) = getTargetDateISO (Some s) ∧
  target_date_py (Some (before ++ s ++ after)) = target_date_py (Some s).
Proof.
  intros Hb Ha.
  assert (H : getTargetDateISO (Some (before ++ s ++ after)) = getTargetDateISO (Some s)).
  { unfold getTargetDateISO. cbn [default from_option id]. rewrite !str_or_nil.
    rewrite trim_blank_app, trim_app_blank by assumption. reflexivity. }
  split; [exact H|]. unfold target_date_py. rewrite H. reflexivity.
Qed.

Lemma target_date_ignores_padding_witness :
  Forall (λ c, is_white_space c = true) [32; 9] ∧
  Forall (λ c, is_white_space c = true) [160; 10] ∧
  getTargetDateISO (Some ([32; 9] ++ js "04/10/2025" ++ [160; 10]))
  = Some (js "2025-10-04").
Proof.
  assert (Hb : Forall (λ c, is_white_space c = true) [32; 9]) by (repeat constructor).
  assert (Ha : Forall (λ c, is_white_space c = true) [160; 10]) by (repeat constructor).
  split; [exact Hb|]. split; [exact Ha|].
  rewrite (proj1 (target_date_ignores_padding [32; 9] (js "04/10/2025") [160; 10] Hb Ha)).
  vm_compute. reflexivity.
Defined.

(** ** What a click of [#buildBtn] leaves of the page *)

Lemma log_extends_refl l : App.log_extends l l.
Proof. destruct l; simpl; [|reflexivity]. exists []. rewrite app_nil_r. reflexivity. Qed.

Lemma log_extends_trans a b c : App.log_extends a b → App.log_extends b c → App.log_extends a c.
Proof.
  destruct a as [t|]; simpl.
  - intros [s1 ->] [s2 ->]. exists (s1 ++ s2). rewrite app_assoc. reflexivity.
  - intros ->. simpl. auto.
Qed.

Ltac log_grows :=
  first [ exists []; rewrite app_nil_r; reflexivity
        | eexists; rewrite <- ?app_assoc; reflexivity ].

Lemma app_click_frame (env : Env) (st st' : App.State) (r : exn + option value) :
  App.click env st = (r, st') →
  App.SETTINGS st' = App.SETTINGS st ∧ App.fileInput st' = App.fileInput st ∧
  App.dateEl st' = App.dateEl st ∧ App.log_extends (App.logEl st) (App.logEl st').
Proof.
  intros Hrun.
  unfold App.click, App.on_error, App.build, App.alert, App.log, App.with_pyodide,
    globals_set in Hrun.
  run_in Hrun.
  all: repeat match goal with
              | H : App.filesToPyTuples _ _ = _ |- _ =>
                  apply filesToPyTuples_spec in H as [-> _]
              end.
  all: proj_goal; unfold App.log_extends.
  all: repeat match goal with H : App.logEl _ = _ |- _ => rewrite H end.
  all: repeat split; try reflexivity; first [apply log_extends_refl | log_grows].
Qed.

Lemma app_boot_frame (env : Env) (st st' : App.State) (r : exn + unit) :
  App.boot env st = (r, st') →
  App.fileInput st' = App.fileInput st ∧ App.dateEl st' = App.dateEl st ∧
  App.log_extends (App.logEl st) (App.logEl st').
Proof.
  intros Hrun.
  unfold App.boot, App.load_settings, App.log, App.with_pyodide in Hrun.
  run_in Hrun.
  all: proj_goal; unfold App.log_extends.
  all: repeat match goal with H : App.logEl _ = _ |- _ => rewrite H end.
  all: repeat split; try reflexivity; first [apply log_extends_refl | log_grows].
Qed.

Lemma app_clicks_frame (env : Env) (inputs : list (option (list File) * option jsstring)) :
  ∀ st, App.SETTINGS (App.clicks env inputs st) = App.SETTINGS st ∧
        App.log_extends (App.logEl st) (App.logEl (App.clicks env inputs st)).
Proof.
  induction inputs as [|[files date] inputs IH]; intros st; cbn [App.clicks].
  - split; [reflexivity | apply log_extends_refl].
  - destruct (App.click env (App.select files date st)) as [r st1] eqn:Hrun.
    apply app_click_frame in Hrun as (Hs & _ & _ & Hl). cbn [snd].
    destruct (IH st1) as [Hs' Hl']. split.
    + rewrite Hs', Hs. reflexivity.
    + eapply log_extends_trans; [exact Hl | exact Hl'].
Qed.

(** X2. The log of app.js is append-only over a whole session: on a page
    with a [#log] element, the text after the boot and any number of
    clicks starts with the text there was before; on a page without the
    element there is none afterwards either. *)
Theorem app_log_append_only (env : Env)
    (inputs : list (option (list File) * option jsstring)) (st : App.State) :
  match App.logEl st with
  | Some text => ∃ suffix, App.logEl (App.session env inputs st) = Some (text ++ suffix)
  | None => App.logEl (App.session env inputs st) = None
  end.
Proof.
  unfold App.session. destruct (App.boot env st) as [r st1] eqn:Hboot.
  apply app_boot_frame in Hboot as (_ & _ & Hl). cbn [snd].
  exact (log_extends_trans _ _ _ Hl (proj2 (app_clicks_frame env inputs st1))).
Qed.

(** X3. app.js reads the settings once: whatever the clicks of a session
    select, and whatever has become of the world since the boot, the
    settings variable stays what the boot left, and so does the settings
    argument of every later call. *)
Theorem app_settings_read_once (env env' : Env)
    (inputs : list (option (list File) * option jsstring)) (st : App.State) :
  let booted := (App.boot env st).2 in
  App.SETTINGS (App.clicks env' inputs booted) = App.SETTINGS booted ∧
  App.settings_py (App.SETTINGS (App.clicks env' inputs booted))
  = App.settings_py (App.SETTINGS booted).
Proof.
  intros booted. rewrite (proj1 (app_clicks_frame env' inputs booted)). split; reflexivity.
Qed.

(** ** The reset button of app.js *)

(** X4. The reset handler of app.js: on a page without [#csvFiles] it
    throws before anything is cleared or logged; otherwise it empties the
    selection and the date input and keeps the runtime and the settings,
    and the next click on Build only alerts, whatever the world. *)
Theorem app_reset_spec (env : Env) (st : App.State) :
  match App.fileInput st with
  | None =>
      App.reset env st
      = (inl (TypeError "Cannot set properties of null (setting 'value')"), st)
  | Some _ =>
      let st' := (App.reset env st).2 in
      (App.reset env st).1 = inr tt ∧
      App.fileInput st' = Some [] ∧
      App.dateEl st' = (λ _, []) <$> App.dateEl st ∧
      App.pyodide st' = App.pyodide st ∧ App.SETTINGS st' = App.SETTINGS st ∧
      App.alerts st' = App.alerts st ∧
      App.log_extends (App.logEl st) (App.logEl st') ∧
      ∀ env', App.click env' st'
              = (inr None, App.add_alert (js "Select your 6 CSVs first.") st')
  end.
Proof.
  destruct (App.fileInput st) as [files|] eqn:Hfiles.
  - intros st'.
    assert (Hst : App.reset env st
                  = App.log env (js "Reset.")
                      (App.select (Some []) ((λ _, []) <$> App.dateEl st) st)).
    { unfold App.reset. cbv beta iota delta [bind gets modify]. rewrite Hfiles.
      cbn [App.select App.dateEl App.fileInput]. destruct (App.dateEl st); reflexivity. }
    subst st'. rewrite Hst. unfold App.log. cbn [App.select App.logEl].
    destruct (App.logEl st) as [text|] eqn:Hlog; proj_goal; rewrite ?Hlog.
    + do 6 (split; [reflexivity|]). split; [simpl; log_grows|].
      intros env'. apply app_click_no_files. reflexivity.
    + do 7 (split; [reflexivity|]).
      intros env'. apply app_click_no_files. reflexivity.
  - unfold App.reset. cbv beta iota delta [bind gets throw]. rewrite Hfiles. reflexivity.
Qed.

(** ** The reset button of the glue script *)

(** X5. The reset handler of the glue script empties the selection and
    the four report regions and rewrites the status line and the badge,
    whatever they showed; the cached runtime and the target date stay; a
    second reset changes nothing more; and the next click on Run only
    alerts. *)
Theorem glue_reset_spec (st : Glue.State) :
  let st' := (Glue.reset st).2 in
  (Glue.reset st).1 = inr tt ∧
  Glue.fileInput st' = [] ∧
  Glue.summary st' = Glue.HEmpty ∧ Glue.vet st' = Glue.HEmpty ∧
  Glue.swaps st' = Glue.HEmpty ∧ Glue.audit st' = Glue.HEmpty ∧
  Glue.status st' = js "Cleared. (Ephemeral mode)" ∧
  Glue.badge st' = js "Data as of: " ++ [Glue.em_dash] ∧
  Glue.pyodidePromise st' = Glue.pyodidePromise st ∧
  Glue.targetDate st' = Glue.targetDate st ∧
  Glue.calls st' = Glue.calls st ∧
  (Glue.reset st').2 = st' ∧
  ∀ env, Glue.click env st'
         = (inr tt, Glue.add_alert (js "Please select your daily CSVs first.") st').
Proof.
  intros st'. subst st'. do 12 (split; [reflexivity|]).
  intros env. apply glue_click_no_files. reflexivity.
Qed.

(** ** The cached runtime *)

Lemma glue_buildData_rejected (env : Env) (files : list File) (st : Glue.State) (e : exn) :
  Glue.pyodidePromise st = Some (inl e) →
  Glue.buildData env files st
  = (inl e, Glue.set_status (js "Loading Pyodide" ++ [Glue.ellipsis]) st).
Proof.
  intros Hp. unfold Glue.buildData, Glue.ensurePyodide.
  cbv beta iota delta [bind gets modify throw]. proj_goal. rewrite Hp. reflexivity.
Qed.

Lemma glue_buildData_load_fails (env : Env) (files : list File) (st : Glue.State) (e : exn) :
  Glue.pyodidePromise st = None →
  Glue.load_outcome env = inl e →
  Glue.buildData env files st
  = (inl e, Glue.set_promise (Some (inl e))
              (Glue.set_status (js "Loading Pyodide" ++ [Glue.ellipsis]) st)).
Proof.
  intros Hp Hload. unfold Glue.buildData, Glue.ensurePyodide.
  cbv beta iota delta [bind gets modify throw]. proj_goal. rewrite Hp.
  unfold Glue.load_outcome in Hload.
  destruct (env_loadPyodide env) as [e'|fs]; [by simplify_eq|].
  destruct (env_loadPackage env) as [e'|]; by simplify_eq.
Qed.

(** X6. A failed load of the runtime is never retried: when the first
    click finds no promise and the load of Pyodide or of its packages
    fails, the rejection is what the page caches, and every later click
    with files selected, in whatever world, ends in the same error
    without a load, a fetch or a call of the engine. *)
Theorem glue_load_failure_is_cached (env : Env) (st : Glue.State) (e : exn)
    (f : File) (fs : list File) :
  Glue.pyodidePromise st = None →
  Glue.load_outcome env = inl e →
  Glue.fileInput st = f :: fs →
  let st1 := (Glue.click env st).2 in
  Glue.pyodidePromise st1 = Some (inl e) ∧
  Glue.status st1 = js "Error: " ++ exn_to_string e ∧
  ∀ env' st2 f' fs',
    Glue.pyodidePromise st2 = Some (inl e) →
    Glue.fileInput st2 = f' :: fs' →
    Glue.click env' st2
    = (inr tt, Glue.set_status (js "Error: " ++ exn_to_string e)
                 (Glue.add_console e
                    (Glue.set_status (js "Loading Pyodide" ++ [Glue.ellipsis]) st2))).
Proof.
  intros Hp Hload Hfiles st1. subst st1.
  rewrite (glue_click_failure env st _ f fs e Hfiles
             (glue_buildData_load_fails env (f :: fs) st e Hp Hload)).
  split; [reflexivity|]. split; [reflexivity|].
  intros env' st2 f' fs' Hp2 Hfiles2.
  exact (glue_click_failure env' st2 _ f' fs' e Hfiles2
           (glue_buildData_rejected env' (f' :: fs') st2 e Hp2)).
Qed.

Lemma glue_load_failure_is_cached_witness :
  let st1 := (Glue.click Sample.no_runtime Sample.glue_start).2 in
  Glue.pyodidePromise Sample.glue_start = None ∧
  Glue.load_outcome Sample.no_runtime = inl (TypeError "Failed to fetch") ∧
  Glue.fileInput Sample.glue_start = [Sample.csv] ∧
  Glue.pyodidePromise st1 = Some (inl (TypeError "Failed to fetch")) ∧
  Glue.calls (Glue.click Sample.env st1).2 = [] ∧
  Glue.status (Glue.click Sample.env st1).2 = js "Error: TypeError: Failed to fetch".
Proof.
  intros st1.
  pose proof (glue_load_failure_is_cached Sample.no_runtime Sample.glue_start
                (TypeError "Failed to fetch") Sample.csv [] eq_refl eq_refl eq_refl)
    as (Hp & _ & Hnext).
  split; [reflexivity|]. split; [reflexivity|]. split; [reflexivity|].
  split; [exact Hp|].
  rewrite (Hnext Sample.env st1 Sample.csv [] Hp eq_refl).
  split; [|reflexivity]. unfold Glue.calls. cbn [snd]. proj_goal. subst st1.
  rewrite Hp. reflexivity.
Defined.

(** ** The [ok] flag of a response *)

(** X7. The glue script never looks at [r.ok]: a click does the same and
    leaves the same page whatever the [ok] flags of the responses for
    engine_pyodide.py and settings.json, so the body of an error page is
    run as the engine or parsed as the settings all the same. *)
Theorem glue_ignores_response_status (settings_ok engine_ok : bool) (env : Env)
    (st : Glue.State) :
  Glue.click (env_with_ok settings_ok engine_ok env) st = Glue.click env st.
Proof.
  unfold Glue.click, Glue.build_and_render, Glue.buildData, Glue.ensurePyodide,
    Glue.loadEngine, Glue.readSettings, Glue.run_source, Glue.read_clock.
  cbn [env_with_ok env_loadPyodide env_loadPackage env_fetch_settings env_fetch_engine
       env_sys_path env_exec env_toLocaleTimeString env_toISOString].
  destruct (env_fetch_settings env) as [e1|r1], (env_fetch_engine env) as [e2|r2];
    reflexivity.
Qed.

(** X8. app.js does look at [r.ok]: the boot never fails on account of
    the settings, and when the runtime loads the settings variable takes
    the parsed body of an [ok] response and otherwise, after an error
    status, a body that is not JSON or a failed fetch, stays as it was. *)
Theorem app_boot_settings (env : Env) (st : App.State) (fs0 : gmap string (list N)) :
  env_loadPyodide env = inr fs0 →
  (App.boot env st).1 = inr tt ∧
  App.SETTINGS (App.boot env st).2
  = match env_fetch_settings env with
    | inr {| resp_ok := true; resp_json := inr v |} => v
    | _ => App.SETTINGS st
    end.
Proof.
  intros Hload. destruct (App.boot env st) as [r st'] eqn:Hrun.
  apply app_boot_spec in Hrun. rewrite Hload in Hrun. cbn [fst snd].
  destruct Hrun as (-> & _ & ->). split; [reflexivity|].
  destruct (env_fetch_settings env) as [e|[[] [e|v] text]]; reflexivity.
Qed.

Lemma app_boot_settings_witness :
  env_loadPyodide Sample.env = inr ∅ ∧
  App.SETTINGS (App.boot Sample.env Sample.app_start).2 = Sample.settings_json ∧
  App.SETTINGS (App.boot (env_with_ok false true Sample.env) Sample.app_start).2 = VNull.
Proof.
  split; [reflexivity|]. split.
  - rewrite (proj2 (app_boot_settings Sample.env Sample.app_start ∅ eq_refl)). reflexivity.
  - rewrite (proj2 (app_boot_settings (env_with_ok false true Sample.env)
                      Sample.app_start ∅ eq_refl)).
    reflexivity.
Defined.

(** ** The file map of the glue script *)

Lemma dict_keys_set_list (d : list (jsstring * value)) (k : jsstring) (v : value) :
  dict_keys (dict_set d k v)
  = if decide (k ∈ dict_keys d) then dict_keys d else dict_keys d ++ [k].
Proof.
  unfold dict_keys. induction d as [|[k0 v0] d IH]; cbn [dict_set map fst app].
  - rewrite decide_False by apply not_elem_of_nil. reflexivity.
  - destruct (decide (k = k0)) as [->|Hne]; cbn [map fst app].
    + rewrite decide_True by apply list_elem_of_here. reflexivity.
    + rewrite IH. destruct (decide (k ∈ map fst d)) as [Hin|Hout].
      * rewrite decide_True by (apply list_elem_of_further; exact Hin). reflexivity.
      * rewrite decide_False; [reflexivity|].
        rewrite elem_of_cons. intros [?|?]; contradiction.
Qed.

Lemma dict_set_NoDup (d : list (jsstring * value)) (k : jsstring) (v : value) :
  NoDup (dict_keys d) → NoDup (dict_keys (dict_set d k v)).
Proof.
  intros Hd. rewrite dict_keys_set_list. destruct (decide (k ∈ dict_keys d)); [exact Hd|].
  apply NoDup_app. split; [exact Hd|]. split; [|apply NoDup_singleton].
  intros x Hx ->%list_elem_of_singleton. contradiction.
Qed.

Lemma fill_fileMap_from (files : list File) :
  ∀ acc m, Glue.fill_fileMap files acc = inr m →
    (NoDup (dict_keys acc) → NoDup (dict_keys m)) ∧
    (∀ k, k ∈ dict_keys m ↔ k ∈ dict_keys acc ∨ k ∈ map file_name files) ∧
    (∀ k, k ∉ map file_name files → dict_get m k = dict_get acc k) ∧
    (∀ pre f post buf,
       files = pre ++ f :: post → file_bytes f = inr buf →
       file_name f ∉ map file_name post →
       dict_get m (file_name f) = Some (VBytes buf)).
Proof.
  induction files as [|f0 files IH]; intros acc m; cbn [Glue.fill_fileMap].
  - intros [= <-]. split; [auto|]. split; [|split; [auto|]].
    + intros k. simpl. rewrite elem_of_nil. tauto.
    + intros [|] ? ? ? [=].
  - destruct (file_bytes f0) as [e|buf0] eqn:Hb0; [discriminate|]. intros Hm.
    destruct (IH _ _ Hm) as (Hnd & Hkeys & Hget & Hlast).
    split; [|split; [|split]].
    + intros Hacc. apply Hnd, dict_set_NoDup, Hacc.
    + intros k. rewrite Hkeys, dict_keys_set. simpl. rewrite elem_of_cons. tauto.
    + intros k Hk. simpl in Hk. rewrite elem_of_cons in Hk.
      rewrite Hget by tauto. apply dict_get_set_ne. intros Heq. apply Hk. left.
      congruence.
    + intros [|f1 pre] f post buf Heq Hbuf Hpost; simplify_eq/=.
      * rewrite Hget by exact Hpost. rewrite dict_get_set_eq. congruence.
      * eapply Hlast; eauto.
Qed.

(** X9. When no selected file is named __proto__, the file map the glue
    script builds has one entry per distinct file name: its keys are the
    names of the selected files, none twice, and under a name it holds
    the bytes of the last selected file of that name; an earlier file of
    the same name does not reach the engine. *)
Theorem fill_fileMap_last_wins (files : list File) (m : list (jsstring * value)) :
  js "__proto__" ∉ map file_name files →
  Glue.fill_fileMap files [] = inr m →
  NoDup (dict_keys m) ∧
  (∀ k, k ∈ dict_keys m ↔ k ∈ map file_name files) ∧
  (∀ pre f post buf,
     files = pre ++ f :: post → file_bytes f = inr buf →
     file_name f ∉ map file_name post →
     dict_get m (file_name f) = Some (VBytes buf)).
Proof.
  intros _ Hm. destruct (fill_fileMap_from files [] m Hm) as (Hnd & Hkeys & _ & Hlast).
  split; [apply Hnd, NoDup_nil_2|]. split; [|exact Hlast].
  intros k. rewrite Hkeys. simpl. rewrite elem_of_nil. tauto.
Qed.

Lemma fill_fileMap_last_wins_witness :
  (js "__proto__" ∉ map file_name [Sample.old_roster; Sample.new_roster]) ∧
  ∃ m, Glue.fill_fileMap [Sample.old_roster; Sample.new_roster] [] = inr m ∧
       dict_keys m = [js "roster.csv"] ∧
       dict_get m (js "roster.csv") = Some (VBytes [2]).
Proof.
  assert (Hnames : js "__proto__" ∉ map file_name [Sample.old_roster; Sample.new_roster]).
  { intros H. repeat (apply elem_of_cons in H as [H|H]; [vm_compute in H; discriminate H|]).
    by apply elem_of_nil in H. }
  split; [exact Hnames|].
  exists [(js "roster.csv", VBytes [2])].
  assert (Hm : Glue.fill_fileMap [Sample.old_roster; Sample.new_roster] []
               = inr [(js "roster.csv", VBytes [2])])
    by (vm_compute; reflexivity).
  split; [exact Hm|]. split; [reflexivity|].
  exact (proj2 (proj2 (fill_fileMap_last_wins _ _ Hnames Hm))
           [Sample.old_roster] Sample.new_roster [] [2]
           eq_refl eq_refl (not_elem_of_nil _)).
Defined.

(** X10. Reading the selection fails in the glue script exactly when a
    selected file cannot be read, and the error is that of the first such
    file. *)
Theorem fill_fileMap_failure (files : list File) (e : exn) :
  Glue.fill_fileMap files [] = inl e ↔
  ∃ pre f post, files = pre ++ f :: post ∧ App.readable pre = true ∧ file_bytes f = inl e.
Proof.
  generalize (@nil (jsstring * value)) as acc.
  induction files as [|f0 files IH]; intros acc; cbn [Glue.fill_fileMap].
  - split; [discriminate|]. intros ([|] & ? & ? & [=] & _).
  - destruct (file_bytes f0) as [e0|buf0] eqn:Hb0.
    + split.
      * intros [= ->]. exists [], f0, files. auto.
      * intros ([|f1 pre] & f & post & Heq & Hpre & Hf); simplify_eq/=; [congruence|].
        rewrite Hb0 in Hpre. discriminate.
    + rewrite IH. split.
      * intros (pre & f & post & -> & Hpre & Hf). exists (f0 :: pre), f, post.
        split; [reflexivity|]. split; [|exact Hf]. simpl. rewrite Hb0. exact Hpre.
      * intros ([|f1 pre] & f & post & Heq & Hpre & Hf); simplify_eq/=; [congruence|].
        rewrite Hb0 in Hpre. exists pre, f, post. auto.
Qed.

(** ** The list of files of app.js *)

(** X11. [filesToPyTuples] changes nothing on the page.  With a runtime
    it yields one [name, bytes] pair per selected file, in the order of the
    selection and with files of the same name kept apart, or fails with
    the error of the first file that cannot be read; without a runtime it
    fails with that error or with a [TypeError]. *)
Theorem filesToPyTuples_pairs (files : list File) (st : App.State) :
  (App.filesToPyTuples files st).2 = st ∧
  match (App.filesToPyTuples files st).1 with
  | inr v =>
      is_Some (App.pyodide st) ∧
      ∃ tuples, v = VList tuples ∧
        Forall2 (λ f t, ∃ buf, file_bytes f = inr buf
                               ∧ t = VList [VStr (file_name f); VBytes buf]) files tuples
  | inl e =>
      (∃ pre f post, files = pre ++ f :: post ∧ App.readable pre = true
                     ∧ file_bytes f = inl e) ∨
      (App.pyodide st = None ∧ e = null_read "toPy")
  end.
Proof.
  unfold App.filesToPyTuples.
  set (g := λ f : File,
         bind (lift (file_bytes f)) (λ buf,
         bind (App.with_pyodide "toPy" (ret (VBytes buf))) (λ pyBytes,
         ret (S := App.State) (VList [VStr (file_name f); pyBytes])))).
  assert (Hloop : ∀ fs,
            (for_each g fs st).2 = st ∧
            match (for_each g fs st).1 with
            | inr ts =>
                Forall2 (λ f t, ∃ buf, file_bytes f = inr buf
                                       ∧ t = VList [VStr (file_name f); VBytes buf]) fs ts
            | inl e =>
                (∃ pre f post, fs = pre ++ f :: post ∧ App.readable pre = true
                               ∧ file_bytes f = inl e) ∨
                (App.pyodide st = None ∧ e = null_read "toPy")
            end).
  { induction fs as [|f fs [IHs IHr]].
    - split; [reflexivity|]. constructor.
    - cbn [for_each]. unfold g at 1 3. cbv beta iota delta [bind ret lift].
      destruct (file_bytes f) as [e|buf] eqn:Hb.
      { split; [reflexivity|]. left. exists [], f, fs. auto. }
      rewrite with_pyodide_ret.
      destruct (App.pyodide st) eqn:Hpy; [|split; [reflexivity|]; right; auto].
      destruct (for_each g fs st) as [[e|ts] s1]; cbn [fst snd] in *.
      + split; [exact IHs|]. destruct IHr as [(pre & f1 & post & -> & Hpre & Hf1)|[? _]];
          [|congruence].
        left. exists (f :: pre), f1, post. split; [reflexivity|]. split; [|exact Hf1].
        simpl. rewrite Hb. exact Hpre.
      + split; [exact IHs|]. constructor; [eauto | exact IHr]. }
  cbv beta iota delta [bind ret].
  destruct (Hloop files) as [Hs Hr].
  destruct (for_each g files st) as [[e|ts] s1]; cbn [fst snd] in *; subst s1.
  - split; [reflexivity | exact Hr].
  - rewrite with_pyodide_ret. destruct (App.pyodide st) eqn:Hpy; cbn [fst snd].
    + split; [reflexivity|]. split; [eauto|]. exists ts. auto.
    + split; [reflexivity|]. right. auto.
Qed.

(** ** What app.js hands on of the engine's result *)

Lemma app_build_none (env : Env) (st st' : App.State) :
  App.build env st = (inr None, st') → App.pyodide st' = App.pyodide st.
Proof.
  intros Hrun.
  unfold App.build, App.alert, App.log, App.with_pyodide, globals_set in Hrun.
  run_in Hrun. all: reflexivity.
Qed.

(** X12. In the result app.js hands on, every field of the dict the
    engine returned whose value [JSON.parse] reads back as it was written
    (no integer beyond 2^53 in size) keeps that value, and no field is
    added, apart from the two the script sets: engine_loaded is [true]
    whatever the engine put there, and engine_version is the text
    <unknown> when the engine gave none. *)
Theorem app_result_values (env : Env) (st : App.State) (result : value) :
  (App.click env st).1 = inr (Some result) →
  ∃ args d d',
    App.calls (App.click env st).2 = App.calls st ++ [(args, inr (VDict d))] ∧
    result = VDict d' ∧
    (∀ k v, k ≠ js "engine_loaded" → dict_get d k = Some v → json_safe v = true →
            dict_get d' k = Some v) ∧
    (∀ k, k ≠ js "engine_loaded" → k ≠ js "engine_version" → dict_get d k = None →
          dict_get d' k = None) ∧
    dict_get d' (js "engine_loaded") = Some (VBool true) ∧
    (dict_get d (js "engine_version") = None →
     dict_get d' (js "engine_version") = Some (VStr (js "<unknown>"))).
Proof.
  intros Hres. apply app_click_result in Hres. rewrite app_click_calls.
  destruct (App.build env st) as [r st1] eqn:Hrun. cbn [fst snd] in *. subst r.
  apply app_build_spec in Hrun.
  destruct Hrun as [(_ & Hno & _) | (rt & rt' & tuples & Hrt & Hrt' & _ & _ & _ & _ & _ & Hc)].
  { exfalso. eapply Hno. reflexivity. }
  destruct Hc as [[_ [e He]] | (out & Hc & Hout)]; [discriminate|].
  destruct (Hout _ eq_refl) as (d & -> & Hd).
  eexists _, d, _. unfold App.calls. rewrite Hrt, Hrt'.
  split; [exact Hc|]. split; [exact Hd|].
  assert (Hne : js "engine_loaded" ≠ js "engine_version") by (vm_compute; discriminate).
  assert (Hversion : dict_get (dict_set d (js "engine_loaded") (VBool true))
                       (js "engine_version") = dict_get d (js "engine_version"))
    by (apply dict_get_set_ne; exact Hne).
  split; [|split; [|split]].
  - intros k v Hl Hk _. destruct (decide (k = js "engine_version")) as [->|Hv].
    + rewrite dict_get_set_eq, Hversion, Hk. reflexivity.
    + rewrite !dict_get_set_ne by congruence. exact Hk.
  - intros k Hl Hv Hk. rewrite !dict_get_set_ne by congruence. exact Hk.
  - rewrite dict_get_set_ne by congruence. apply dict_get_set_eq.
  - intros Hnone. rewrite dict_get_set_eq, Hversion, Hnone. reflexivity.
Qed.

Lemma app_result_values_witness :
  ∃ result d',
    (App.click Sample.env (Sample.app_deployed Sample.env)).1 = inr (Some result) ∧
    result = VDict d' ∧
    dict_get d' (js "engine_version") = Some (VStr (js "<unknown>")) ∧
    dict_get d' (js "presence_map") = Some (VDict []).
Proof.
  assert (Hres : ∃ result,
            (App.click Sample.env (Sample.app_deployed Sample.env)).1
            = inr (Some result)) by (eexists; vm_compute; reflexivity).
  destruct Hres as [result Hres].
  destruct (app_result_values Sample.env (Sample.app_deployed Sample.env) result Hres)
    as (args & d & d' & Hcalls & Hr & Hkeep & _ & _ & Hv).
  exists result, d'. split; [exact Hres|]. split; [exact Hr|].
  vm_compute in Hcalls. injection Hcalls as _ Hd. subst d. split.
  - apply Hv. vm_compute. reflexivity.
  - apply Hkeep; [vm_compute; discriminate | vm_compute; reflexivity | reflexivity].
Defined.

(** X13. An engine that returns anything but a dict makes the build of
    app.js fail after the call: the click returns no result, the error is
    logged to the console once and shown in an alert. *)
Theorem app_result_must_be_dict (env : Env) (st : App.State) (args : list value)
    (v : value) :
  App.calls (App.click env st).2 = App.calls st ++ [(args, inr v)] →
  (∀ d, v ≠ VDict d) →
  (App.click env st).1 = inr None ∧
  ∃ e, App.console (App.click env st).2 = App.console st ++ [inl e] ∧
       App.alerts (App.click env st).2
       = App.alerts st ++ [js "Build failed: " ++ exn_text e].
Proof.
  intros Hcalls Hv. rewrite app_click_calls in Hcalls.
  assert (Hgrow : ∀ l : list (list value * (exn + value)), ∀ x, l ≠ l ++ [x]).
  { intros l x H. apply (f_equal length) in H. rewrite length_app in H. simpl in H. lia. }
  destruct (App.build env st) as [r st1] eqn:Hrun. cbn [snd] in Hcalls.
  assert (He : ∃ e, r = inl e).
  { destruct r as [e|[result|]]; [eauto| |].
    - exfalso. pose proof (app_build_spec _ _ _ _ Hrun) as Hspec.
      destruct Hspec as [(_ & Hno & _)
                        | (rt & rt' & tuples & Hrt & Hrt' & _ & _ & _ & _ & _ & Hc)].
      + eapply Hno. reflexivity.
      + destruct Hc as [[_ [e He]] | (out & Hc & Hout)]; [discriminate|].
        destruct (Hout _ eq_refl) as (d & -> & _).
        unfold App.calls in Hcalls. rewrite Hrt, Hrt', Hc in Hcalls.
        apply app_inv_head in Hcalls. injection Hcalls as _ Hd.
        exact (Hv d (eq_sym Hd)).
    - exfalso. apply app_build_none in Hrun. unfold App.calls in Hcalls.
      rewrite Hrun in Hcalls. exact (Hgrow _ _ Hcalls). }
  destruct He as [e ->].
  pose proof (app_build_failure _ _ _ _ Hrun) as [Ha Hc].
  unfold App.click, try_catch. rewrite Hrun.
  unfold App.on_error, App.alert, App.log. cbv beta iota delta [bind ret modify].
  proj_goal. split; [destruct (App.logEl st1); reflexivity|].
  exists e. destruct (App.logEl st1); proj_goal; rewrite Ha, Hc; split; reflexivity.
Qed.

Lemma app_result_must_be_dict_witness :
  let env := Sample.returning (VList []) in
  let st := Sample.app_deployed env in
  ∃ args,
    App.calls (App.click env st).2 = App.calls st ++ [(args, inr (VList []))] ∧
    (App.click env st).1 = inr None ∧
    App.alerts (App.click env st).2
    = [js "Build failed: TypeError: object does not support item assignment"].
Proof.
  intros env st.
  assert (Hcalls : ∃ args, App.calls (App.click env st).2
                           = App.calls st ++ [(args, inr (VList []))])
    by (eexists; vm_compute; reflexivity).
  destruct Hcalls as [args Hcalls]. exists args. split; [exact Hcalls|].
  destruct (app_result_must_be_dict env st args (VList []) Hcalls
              ltac:(intros d; discriminate)) as (Hres & e & _ & _).
  split; [exact Hres|]. vm_compute. reflexivity.
Defined.

(** ** The renderers *)

Lemma array_map_pure {A} (callee : string) (g : value → exn + A) (arr : value)
    (st : Glue.State) :
  (Glue.array_map callee g arr st).2 = st.
Proof.
  apply (keeps_array_map (λ s, s)).
Qed.

Lemma for_each_lift_pure {S A B} (g : A → exn + B) (xs : list A) (st : S) :
  (for_each (λ x, lift (g x)) xs st).2 = st.
Proof.
  apply (keeps_for_each (λ s, s)). intros x s. reflexivity.
Qed.

Lemma swap_block_pure (title : string) (arr : value) (st : Glue.State) :
  (Glue.swap_block title arr st).2 = st.
Proof.
  unfold Glue.swap_block. cbv beta iota delta [bind ret].
  pose proof (array_map_pure "arr" Glue.swap_row arr st) as H.
  destruct (Glue.array_map "arr" Glue.swap_row arr st) as [[e|rows] s1]; exact H.
Qed.

Lemma renderSummaryBlock_atomic (v : value) (st : Glue.State) :
  match Glue.renderSummaryBlock v st with
  | (inl _, st') => st' = st
  | (inr _, st') => ∃ h, st' = Glue.set_summary h st
  end.
Proof.
  unfold Glue.renderSummaryBlock. cbv beta iota delta [bind lift modify].
  destruct (Glue.prop_or v "by_department" (VDict [])) as [e|d]; [reflexivity|].
  pose proof (for_each_lift_pure Glue.summary_row (Glue.object_entries d) st) as H.
  destruct (for_each _ (Glue.object_entries d) st) as [[e|rows] s1];
    cbn [snd] in H; subst s1; eauto.
Qed.

Lemma renderVetBlock_atomic (v : value) (st : Glue.State) :
  match Glue.renderVetBlock v st with
  | (inl _, st') => st' = st
  | (inr _, st') => ∃ h, st' = Glue.set_vet h st
  end.
Proof.
  unfold Glue.renderVetBlock. cbv beta iota delta [bind lift modify].
  destruct (Glue.prop_or v "records" (VList [])) as [e|records]; [reflexivity|].
  pose proof (array_map_pure "(vet.records || [])" Glue.vet_row records st) as H.
  destruct (Glue.array_map _ Glue.vet_row records st) as [[e|rows] s1];
    cbn [snd] in H; subst s1; eauto.
Qed.

Lemma renderSwapsBlock_atomic (v : value) (st : Glue.State) :
  match Glue.renderSwapsBlock v st with
  | (inl _, st') => st' = st
  | (inr _, st') => ∃ h, st' = Glue.set_swaps h st
  end.
Proof.
  unfold Glue.renderSwapsBlock. cbv beta iota delta [bind lift modify].
  repeat match goal with
         | |- context [Glue.prop_or v ?k ?d] =>
             destruct (Glue.prop_or v k d) as [?|?]; [reflexivity|]
         | |- context [Glue.swap_block ?t ?a ?s] =>
             let H := fresh in
             pose proof (swap_block_pure t a s) as H;
             destruct (Glue.swap_block t a s) as [[?|?] ?];
             cbn [snd] in H; subst; [reflexivity|]
         end.
  eauto.
Qed.

(** X14. Each renderer is all or nothing: it throws and leaves the whole
    page exactly as it was, or it returns and has replaced its own region
    and nothing else. *)
Theorem renderers_all_or_nothing (v : value) (st : Glue.State) :
  (match Glue.renderSummaryBlock v st with
   | (inl _, st') => st' = st
   | (inr _, st') => ∃ h, st' = Glue.set_summary h st
   end) ∧
  (match Glue.renderVetBlock v st with
   | (inl _, st') => st' = st
   | (inr _, st') => ∃ h, st' = Glue.set_vet h st
   end) ∧
  (match Glue.renderSwapsBlock v st with
   | (inl _, st') => st' = st
   | (inr _, st') => ∃ h, st' = Glue.set_swaps h st
   end).
Proof.
  split; [apply renderSummaryBlock_atomic|].
  split; [apply renderVetBlock_atomic | apply renderSwapsBlock_atomic].
Qed.


Lemma prop_or_null (k : string) (d : value) :
  Glue.prop_or VNull k d = inl (null_read k).
Proof. reflexivity. Qed.
















(** ** One build of the glue script, step by step *)

(** The Python of the glue script runs no source text and touches
    neither the files nor the modules of the runtime. *)
Lemma glue_pyCode_frame (now : jsstring) (rt rt' : Runtime) (r : exn + json_text) :
  Glue.pyCode now rt = (r, rt') →
  rt_executed rt' = rt_executed rt ∧ rt_fs rt' = rt_fs rt ∧
  rt_modules rt' = rt_modules rt.
Proof.
  intros Hrun.
  unfold Glue.pyCode, py_name, py_data, py_call, Glue.to_py in Hrun.
  run_in Hrun. all: proj_goal; repeat split; reflexivity.
Qed.

(** [JS_SETTINGS.to_py()] raises on a primitive, before the call. *)
Lemma glue_pyCode_primitive (now : jsstring) (rt rt' : Runtime) (a2 : value)
    (r : exn + json_text) :
  rt_globals rt !! "JS_SETTINGS" = Some (PyVal a2) →
  json_primitive a2 = true →
  Glue.pyCode now rt = (r, rt') →
  rt_calls rt' = rt_calls rt ∧ ∃ e, r = inl e.
Proof.
  intros H2 Hprim Hrun.
  unfold Glue.pyCode, py_name, py_data, py_call, Glue.to_py in Hrun.
  run_in Hrun. all: try discriminate Hprim.
  all: split; [reflexivity | eauto].
Qed.

(** What a build runs in the runtime it works in. *)
Lemma glue_buildData_executed (env : Env) (files : list File) (st st1 : Glue.State)
    (r : exn + value) (rt : Runtime) (resp : response) :
  Glue.buildData env files st = (r, st1) →
  Glue.runtime_for env st = Some rt →
  env_fetch_engine env = inr resp →
  ∃ rt', Glue.pyodidePromise st1 = Some (inr rt') ∧
         rt_executed rt' = rt_executed rt ++ [utf8_encode (resp_text resp)] ∧
         rt_fs rt' = rt_fs rt ∧ rt_modules rt' = rt_modules rt.
Proof.
  intros Hrun Hrt Hresp. unfold Glue.runtime_for, Glue.load_outcome in Hrt.
  unfold Glue.buildData, Glue.ensurePyodide, Glue.loadEngine, Glue.readSettings,
    Glue.with_py, Glue.run_source, Glue.read_clock, globals_set in Hrun.
  run_in Hrun.
  all: repeat match goal with
              | H : Glue.pyCode _ _ = _ |- _ =>
                  apply glue_pyCode_frame in H as (? & ? & ?); proj_in H
              end.
  all: repeat match goal with
              | H : rt_executed _ = _ |- _ => proj_in H
              | H : rt_fs _ = _ |- _ => proj_in H
              | H : rt_modules _ = _ |- _ => proj_in H
              end.
  all: proj_goal; eexists; split; [reflexivity|]; proj_goal; auto.
Qed.

(** X18. The glue script caches the runtime but not the engine: every
    click that has a runtime and gets the response for engine_pyodide.py
    runs the text of that response as engine source once more in that
    runtime, whatever becomes of the build afterwards. *)
Theorem glue_engine_runs_every_click (env : Env) (st : Glue.State) (f : File)
    (fs : list File) (rt : Runtime) (resp : response) :
  Glue.fileInput st = f :: fs →
  Glue.runtime_for env st = Some rt →
  env_fetch_engine env = inr resp →
  ∃ rt', Glue.pyodidePromise (Glue.click env st).2 = Some (inr rt') ∧
         rt_executed rt' = rt_executed rt ++ [utf8_encode (resp_text resp)].
Proof.
  intros Hfiles Hrt Hresp. rewrite (glue_click_runtime env st f fs Hfiles).
  destruct (Glue.buildData env (f :: fs) st) as [r st1] eqn:Hrun. cbn [snd].
  destruct (glue_buildData_executed env (f :: fs) st st1 r rt resp Hrun Hrt Hresp)
    as (rt' & Hp & Hx & _).
  exists rt'. split; assumption.
Qed.

Lemma glue_engine_runs_every_click_witness :
  let st1 := (Glue.click Sample.env Sample.glue_start).2 in
  let st2 := (Glue.click Sample.env st1).2 in
  ∃ rt1 rt2,
    Glue.runtime_for Sample.env Sample.glue_start = Some (fresh_runtime ∅) ∧
    Glue.pyodidePromise st1 = Some (inr rt1) ∧
    Glue.pyodidePromise st2 = Some (inr rt2) ∧
    rt_executed rt2
    = [utf8_encode Sample.engine_text; utf8_encode Sample.engine_text].
Proof.
  intros st1 st2.
  destruct (glue_engine_runs_every_click Sample.env Sample.glue_start Sample.csv []
              (fresh_runtime ∅) _ eq_refl eq_refl eq_refl)
    as (rt1 & Hp1 & Hx1).
  fold st1 in Hp1.
  assert (Hfiles : Glue.fileInput st1 = [Sample.csv]) by (vm_compute; reflexivity).
  assert (Hrt : Glue.runtime_for Sample.env st1 = Some rt1).
  { unfold Glue.runtime_for. rewrite Hp1. reflexivity. }
  destruct (glue_engine_runs_every_click Sample.env st1 Sample.csv [] rt1 _
              Hfiles Hrt eq_refl)
    as (rt2 & Hp2 & Hx2).
  exists rt1, rt2. split; [reflexivity|]. split; [exact Hp1|]. split; [exact Hp2|].
  rewrite Hx2, Hx1. reflexivity.
Defined.

Lemma glue_buildData_primitive (env : Env) (files : list File) (st st1 : Glue.State)
    (r : exn + value) (v : value) :
  Glue.buildData env files st = (r, st1) →
  settings_document env = Some v →
  json_primitive v = true →
  Glue.calls st1 = Glue.calls st ∧ ∃ e, r = inl e.
Proof.
  intros Hrun Hdoc Hprim. unfold Glue.calls. unfold settings_document in Hdoc.
  unfold Glue.buildData, Glue.ensurePyodide, Glue.loadEngine, Glue.readSettings,
    Glue.with_py, Glue.run_source, Glue.read_clock, globals_set in Hrun.
  run_in Hrun.
  all: proj_goal.
  all: repeat match goal with
              | H : Glue.pyodidePromise _ = _ |- _ => rewrite H
              end.
  all: try (split; [reflexivity | eauto]; fail).
  all: match goal with
       | Hpy : Glue.pyCode _ _ = _ |- _ =>
           eapply glue_pyCode_primitive in Hpy;
             [|proj_goal; by simplify_map_eq | exact Hprim];
           proj_in Hpy; destruct Hpy as [Hc [e' He']]
       end.
  all: try discriminate.
  all: split; [exact Hc | eauto].
Qed.

(** X19. In the glue script settings.json has to hold an object or an
    array: when the document is [null], a boolean, a number or a string,
    every click with files selected ends in the [catch] with the error in
    the status line, and the engine is not called. *)
Theorem glue_settings_must_be_object (env : Env) (st : Glue.State) (f : File)
    (fs : list File) (v : value) :
  Glue.fileInput st = f :: fs →
  settings_document env = Some v →
  json_primitive v = true →
  let st' := (Glue.click env st).2 in
  Glue.calls st' = Glue.calls st ∧
  ∃ e, Glue.console st' = Glue.console st ++ [e] ∧
       Glue.status st' = js "Error: " ++ exn_to_string e.
Proof.
  intros Hfiles Hdoc Hprim st'. subst st'.
  destruct (Glue.buildData env (f :: fs) st) as [r st1] eqn:Hrun.
  pose proof (glue_buildData_frame _ _ _ _ _ Hrun) as (_ & _ & _ & _ & Hcons & _).
  destruct (glue_buildData_primitive _ _ _ _ _ _ Hrun Hdoc Hprim) as [Hsame [e ->]].
  rewrite (glue_click_failure env st st1 f fs e Hfiles Hrun). cbn [snd]. split.
  - unfold Glue.calls in *. proj_goal. exact Hsame.
  - exists e. proj_goal. rewrite Hcons. split; reflexivity.
Qed.

Lemma glue_settings_must_be_object_witness :
  let env := Sample.with_settings VNull in
  Glue.fileInput Sample.glue_start = [Sample.csv] ∧
  settings_document env = Some VNull ∧
  Glue.calls (Glue.click env Sample.glue_start).2 = [] ∧
  Glue.status (Glue.click env Sample.glue_start).2
  = js "Error: PythonError: AttributeError: to_py".
Proof.
  intros env. split; [reflexivity|]. split; [reflexivity|].
  split; [|vm_compute; reflexivity].
  exact (proj1 (glue_settings_must_be_object env Sample.glue_start Sample.csv [] VNull
                  eq_refl eq_refl eq_refl)).
Defined.



(** X21. A result that lacks dept_summary, vet_vto and swaps is rendered
    as an empty report, not as an error: a summary and a VET/VTO table
    without rows, three swap tables titled with a count of 0, and an
    empty audit region. *)
Theorem glue_missing_fields_render_empty (env : Env) (st st1 : Glue.State) (f : File)
    (fs : list File) (data : value) :
  Glue.fileInput st = f :: fs →
  Glue.buildData env (f :: fs) st = (inr data, st1) →
  get_prop data "dept_summary" = inr None →
  get_prop data "vet_vto" = inr None →
  get_prop data "swaps" = inr None →
  let empty title head :=
    {| Glue.tbl_title := title; Glue.tbl_head := head; Glue.tbl_rows := [] |} in
  let swap_head := ["Skip"; "Work"; "EID"; "DeptID"; "MA"; "Type"; "Present"]%string in
  Glue.click env st
  = (inr tt,
     Glue.set_audit Glue.HEmpty
       (Glue.set_swaps
          (Glue.HBlock "Swaps"
             [ empty (js "Swap OUT (0)") swap_head;
               empty (js "Swap IN (expected) (0)") swap_head;
               empty (js "Swap IN (present) (0)") swap_head ])
          (Glue.set_vet
             (Glue.HBlock "VET / VTO"
                [ empty [] ["Date"; "Type"; "EID"; "DeptID"; "MA"; "Type";
                            "Present"]%string ])
             (Glue.set_summary
                (Glue.HBlock "Department Summary"
                   [ empty [] ["Dept"; "Regular Exp"; "Regular Present"; "Swap OUT";
                               "Swap IN Exp"; "Swap IN Pres"; "VET Acc"; "VET Pres";
                               "VTO Acc"]%string ])
                st1)))).
Proof.
  intros Hfiles Hrun Hs Hv Hw empty swap_head.
  unfold Glue.click, Glue.build_and_render.
  cbv beta iota delta [bind gets try_catch lift]. rewrite Hfiles. cbv beta iota.
  rewrite Hrun. unfold Glue.prop_or. rewrite Hs, Hv, Hw. reflexivity.
Qed.

Lemma glue_missing_fields_render_empty_witness :
  let env := Sample.returning (VDict []) in
  ∃ st1,
    Glue.fileInput Sample.glue_start = [Sample.csv] ∧
    Glue.buildData env [Sample.csv] Sample.glue_start = (inr (VDict []), st1) ∧
    Glue.audit (Glue.click env Sample.glue_start).2 = Glue.HEmpty ∧
    Glue.status (Glue.click env Sample.glue_start).2 = js "Done.".
Proof.
  intros env. exists (Glue.buildData env [Sample.csv] Sample.glue_start).2.
  assert (Hrun : Glue.buildData env [Sample.csv] Sample.glue_start
                 = (inr (VDict []), (Glue.buildData env [Sample.csv] Sample.glue_start).2))
    by (vm_compute; reflexivity).
  split; [reflexivity|]. split; [exact Hrun|].
  rewrite (glue_missing_fields_render_empty env Sample.glue_start _ Sample.csv []
             (VDict []) eq_refl Hrun eq_refl eq_refl eq_refl).
  split; [reflexivity|]. vm_compute. reflexivity.
Defined.

(** ** Clicks without a runtime, and what the handlers let escape *)

Lemma filesToPyTuples_null_runtime (f : File) (fs : list File) (st : App.State) :
  App.pyodide st = None →
  App.readable (f :: fs) = true →
  App.filesToPyTuples (f :: fs) st = (inl (null_read "toPy"), st).
Proof.
  intros Hpy Hread. unfold App.readable in Hread. cbn [forallb] in Hread.
  destruct (file_bytes f) as [e|buf] eqn:Hb; [discriminate|].
  unfold App.filesToPyTuples. cbn [for_each].
  cbv beta iota delta [bind lift]. rewrite Hb. unfold ret at 1.
  rewrite with_pyodide_ret, Hpy. reflexivity.
Qed.

Lemma app_click_null_runtime (env : Env) (st : App.State) (f : File) (fs : list File) :
  App.pyodide st = None →
  App.fileInput st = Some (f :: fs) →
  App.readable (f :: fs) = true →
  let run := App.click env st in
  run.1 = inr None ∧ App.calls run.2 = [] ∧
  App.alerts run.2 = App.alerts st ++ [js "Build failed: Cannot read properties of null (reading 'toPy')"].
Proof.
  intros Hpy Hfiles Hread run. subst run.
  unfold App.click, try_catch, App.build.
  cbv beta iota delta [bind gets]. rewrite Hfiles. cbn [default from_option id].
  rewrite (filesToPyTuples_null_runtime f fs st Hpy Hread).
  unfold App.on_error, App.alert, App.log, App.calls.
  cbv beta iota delta [bind ret modify]. proj_goal.
  destruct (App.logEl st); proj_goal; rewrite Hpy; repeat split.
Qed.

Lemma app_boot_page (env : Env) (st st' : App.State) (r : exn + unit) :
  App.boot env st = (r, st') →
  App.alerts st' = App.alerts st ∧ App.console st' = App.console st.
Proof.
  intros Hrun.
  unfold App.boot, App.load_settings, App.log, App.with_pyodide in Hrun.
  run_in Hrun. all: proj_goal; split; reflexivity.
Qed.

(** X22. When Pyodide cannot be loaded, the boot of app.js ends there
    with the rejection: nothing is alerted, and the runtime and the
    settings variables stay as they were.  Every later click on a
    readable selection then alerts a [TypeError] about [null], not the
    error of the load, and calls nothing. *)
Theorem app_click_without_runtime (env : Env) (st : App.State) (e : exn) :
  env_loadPyodide env = inl e →
  App.pyodide st = None →
  let st1 := (App.boot env st).2 in
  (App.boot env st).1 = inl e ∧
  App.pyodide st1 = None ∧ App.SETTINGS st1 = App.SETTINGS st ∧
  App.alerts st1 = App.alerts st ∧
  ∀ env' f fs date,
    App.readable (f :: fs) = true →
    let run := App.click env' (App.select (Some (f :: fs)) date st1) in
    run.1 = inr None ∧ App.calls run.2 = [] ∧
    App.alerts run.2
    = App.alerts st ++ [js "Build failed: Cannot read properties of null (reading 'toPy')"].
Proof.
  intros Hload Hpy st1. subst st1.
  destruct (App.boot env st) as [r st1] eqn:Hboot. cbn [fst snd].
  pose proof (app_boot_page _ _ _ _ Hboot) as [Ha _].
  apply app_boot_spec in Hboot. rewrite Hload in Hboot.
  destruct Hboot as (-> & Hpy1 & Hs). rewrite Hpy in Hpy1.
  split; [reflexivity|]. split; [exact Hpy1|]. split; [exact Hs|]. split; [exact Ha|].
  intros env' f fs date Hread.
  pose proof (app_click_null_runtime env' (App.select (Some (f :: fs)) date st1) f fs
                Hpy1 eq_refl Hread) as (H1 & H2 & H3).
  cbn [App.select App.alerts] in H3. rewrite Ha in H3. auto.
Qed.

Lemma app_click_without_runtime_witness :
  let st1 := (App.boot Sample.no_runtime Sample.app_start).2 in
  env_loadPyodide Sample.no_runtime = inl (TypeError "Failed to fetch") ∧
  App.pyodide Sample.app_start = None ∧
  App.readable [Sample.csv] = true ∧
  App.alerts (App.click Sample.env (App.select (Some [Sample.csv]) None st1)).2
  = [js "Build failed: Cannot read properties of null (reading 'toPy')"].
Proof.
  intros st1. split; [reflexivity|]. split; [reflexivity|]. split; [reflexivity|].
  destruct (app_click_without_runtime Sample.no_runtime Sample.app_start
              (TypeError "Failed to fetch") eq_refl eq_refl)
    as (_ & _ & _ & _ & Hclick).
  exact (proj2 (proj2 (Hclick Sample.env Sample.csv [] None eq_refl))).
Defined.

(** X23. The two click handlers catch whatever goes wrong in their
    [try]: in any world, a click on Build never throws, and a click on
    Run never throws on a page that has the elements the glue script
    looks up by id. *)
Theorem click_handlers_never_throw (env : Env) (stA : App.State) (stG : Glue.State) :
  (∃ o, (App.click env stA).1 = inr o) ∧ (Glue.click env stG).1 = inr tt.
Proof.
  split.
  - unfold App.click, try_catch. destruct (App.build env stA) as [[e|o] s1]; [|eauto].
    unfold App.on_error, App.alert, App.log. cbv beta iota delta [bind ret modify].
    proj_goal. destruct (App.logEl s1); eauto.
  - unfold Glue.click. cbv beta iota delta [bind gets modify try_catch].
    destruct (Glue.fileInput stG) as [|f fs]; [reflexivity|].
    destruct (Glue.build_and_render env (f :: fs) stG) as [[e|[]] s1]; reflexivity.
Qed.

(** ** A failed click *)





(** ** The engine file *)

Lemma click_result_or_none (env : Env) (st : App.State) :
  (App.click env st).1 = inr None ∨ ∃ x, (App.click env st).1 = inr (Some x).
Proof.
  unfold App.click, try_catch. destruct (App.build env st) as [[e|[x|]] s1]; eauto.
  unfold App.on_error, App.alert, App.log. cbv beta iota delta [bind ret modify].
  proj_goal. destruct (App.logEl s1); auto.
Qed.

Lemma string_length_app (a b : string) :
  String.length (a ++ b) = (String.length a + String.length b)%nat.
Proof. induction a as [|c a IH]; simpl; [reflexivity|]. rewrite IH. reflexivity. Qed.

(** A directory other than the root puts the module file elsewhere than
    at the root. *)
Lemma path_join_off_root (dir file : string) :
  dir ≠ ""%string → dir ≠ "/"%string → path_join dir file ≠ ("/" ++ file)%string.
Proof.
  intros Hempty Hroot. unfold path_join.
  destruct (String.eqb_spec dir "/") as [->|_]; [contradiction|].
  intros H. apply (f_equal String.length) in H.
  rewrite string_length_app in H. simpl in H.
  destruct dir; [contradiction | simpl in H; lia].
Qed.

Lemma find_module_off_path (sys_path : list string) (fs0 : gmap string (list N))
    (text : list N) :
  Forall (λ dir, dir ≠ ""%string ∧ dir ≠ "/"%string ∧
                 fs0 !! path_join dir "engine_pyodide.py" = None) sys_path →
  find_module sys_path (<[App.engine_path := text]> fs0) App.modname = None.
Proof.
  intros Hpath. unfold find_module.
  assert (Hnone : list_find (λ p, is_Some (<[App.engine_path := text]> fs0 !! p))
                    (map (λ dir, path_join dir (App.modname ++ ".py")) sys_path) = None).
  { apply list_find_None. apply Forall_map.
    eapply Forall_impl; [exact Hpath|]. intros dir (He & Hr & Hfs) [x Hx].
    change (App.modname ++ ".py")%string with "engine_pyodide.py"%string in Hx.
    rewrite lookup_insert_ne in Hx; [congruence|].
    intros Heq. symmetry in Heq. revert Heq. apply path_join_off_root; assumption. }
  rewrite Hnone. reflexivity.
Qed.

(** A click on a page whose runtime does not find the engine module:
    nothing is run, nothing is called, and no result is returned. *)
Lemma app_click_not_found (env : Env) (st : App.State) (rt : Runtime) :
  App.pyodide st = Some rt →
  find_module (env_sys_path env) (rt_fs rt) App.modname = None →
  (App.click env st).1 = inr None ∧
  ∃ rt', App.pyodide (App.click env st).2 = Some rt' ∧
         rt_fs rt' = rt_fs rt ∧ rt_executed rt' = rt_executed rt ∧
         rt_calls rt' = rt_calls rt.
Proof.
  intros Hrt Hfind. split.
  - destruct (click_result_or_none env st) as [Hnone | [x Hx]]; [exact Hnone|].
    exfalso. apply app_click_result in Hx.
    destruct (App.build env st) as [r st1] eqn:Hrun. cbn [fst] in Hx. subst r.
    apply app_build_spec in Hrun.
    destruct Hrun as [(_ & Hno & _)
                     | (rt0 & rt' & tuples & Hrt0 & _ & _ & _ & _ & _ & Hexec & Hc)].
    + eapply Hno. reflexivity.
    + rewrite Hrt in Hrt0. injection Hrt0 as <-.
      destruct Hexec as [(_ & Hsame & _) | (src & Hsome & _)]; [|congruence].
      destruct Hc as [[_ [e He]] | (out & Hgrow & _)]; [discriminate|].
      rewrite Hsame in Hgrow. apply (f_equal length) in Hgrow.
      rewrite length_app in Hgrow. simpl in Hgrow. lia.
  - rewrite app_click_runtime.
    destruct (App.build env st) as [r st1] eqn:Hrun. apply app_build_spec in Hrun.
    cbn [snd].
    destruct Hrun as [(Hpy & _)
                     | (rt0 & rt' & tuples & Hrt0 & Hrt' & _ & _ & _ & Hfs & Hexec & _)].
    + exists rt. rewrite Hpy. auto.
    + rewrite Hrt in Hrt0. injection Hrt0 as <-. exists rt'.
      destruct Hexec as [(Hx & Hc & _) | (src & Hsome & _)]; [auto | congruence].
Qed.

Lemma app_clicks_not_found (env : Env)
    (inputs : list (option (list File) * option jsstring)) :
  ∀ (st : App.State) (rt : Runtime),
    App.pyodide st = Some rt →
    find_module (env_sys_path env) (rt_fs rt) App.modname = None →
    ∃ rt', App.pyodide (App.clicks env inputs st) = Some rt' ∧
           rt_fs rt' = rt_fs rt ∧ rt_executed rt' = rt_executed rt ∧
           rt_calls rt' = rt_calls rt.
Proof.
  induction inputs as [|[files date] inputs IH]; intros st rt Hrt Hfind.
  - exists rt. auto.
  - cbn [App.clicks].
    destruct (app_click_not_found env (App.select files date st) rt Hrt Hfind)
      as (_ & rt1 & Hrt1 & Hfs1 & Hx1 & Hc1).
    rewrite <- Hfs1 in Hfind.
    destruct (IH _ rt1 Hrt1 Hfind) as (rt2 & Hrt2 & Hfs2 & Hx2 & Hc2).
    exists rt2. split; [exact Hrt2|]. repeat split; congruence.
Qed.

(** C10. The boot of app.js writes the placeholder text to
    /engine_pyodide.py, but a runtime whose module search path holds
    neither the root directory nor a file engine_pyodide.py never gets to
    it: in every session the file keeps the placeholder, no click
    returns a result, no module source is run and the engine entry point
    is never called. *)
Theorem placeholder_is_off_the_path (env : Env)
    (inputs : list (option (list File) * option jsstring))
    (st0 : App.State) (fs0 : gmap string (list N)) :
  env_loadPyodide env = inr fs0 →
  Forall (λ dir, dir ≠ ""%string ∧ dir ≠ "/"%string ∧
                 fs0 !! path_join dir "engine_pyodide.py" = None) (env_sys_path env) →
  let written := js "REPLACE_WITH_ENGINE_CODE_IF_EMBEDDING" in
  (∃ rt, App.pyodide (App.boot env st0).2 = Some rt ∧
         rt_fs rt = <["/engine_pyodide.py"%string := written]> fs0) ∧
  (∃ rt, App.pyodide (App.session env inputs st0) = Some rt ∧
         rt_fs rt !! "/engine_pyodide.py"%string = Some written ∧
         rt_executed rt = [] ∧ rt_calls rt = []) ∧
  (∀ files date,
     (App.click env (App.select files date (App.session env inputs st0))).1 = inr None).
Proof.
  intros Hload Hpath written.
  assert (Hw : utf8_encode App.placeholder = written) by (vm_compute; reflexivity).
  destruct (App.boot env st0) as [r st1] eqn:Hboot.
  pose proof (app_boot_spec _ _ _ _ Hboot) as Hspec. rewrite Hload in Hspec.
  destruct Hspec as (_ & Hrt & _). rewrite Hw in Hrt. cbn [snd].
  pose proof (find_module_off_path _ fs0 written Hpath) as Hfind.
  destruct (app_clicks_not_found env inputs st1 _ Hrt Hfind) as (rt & Hfin & Hfs & Hx & Hc).
  assert (Hsession : App.session env inputs st0 = App.clicks env inputs st1).
  { unfold App.session. rewrite Hboot. reflexivity. }
  rewrite Hsession. split; [|split].
  - eexists. split; [exact Hrt | reflexivity].
  - exists rt. split; [exact Hfin|]. split; [|split].
    + rewrite Hfs. cbn [rt_fs set_fs fresh_runtime]. apply lookup_insert_eq.
    + rewrite Hx. reflexivity.
    + rewrite Hc. reflexivity.
  - intros files date.
    assert (Hrt' : App.pyodide (App.select files date (App.clicks env inputs st1)) = Some rt)
      by exact Hfin.
    assert (Hfind' : find_module (env_sys_path env) (rt_fs rt) App.modname = None)
      by (rewrite Hfs; exact Hfind).
    exact (proj1 (app_click_not_found env _ rt Hrt' Hfind')).
Qed.

Lemma placeholder_is_off_the_path_witness :
  let session :=
    App.session Sample.off_path [(Some [Sample.csv], Some (js "04/10/2025"))]
      Sample.app_start in
  env_loadPyodide Sample.off_path = inr ∅ ∧
  (∃ rt, App.pyodide session = Some rt ∧
         rt_fs rt !! "/engine_pyodide.py"%string
         = Some (js "REPLACE_WITH_ENGINE_CODE_IF_EMBEDDING") ∧
         rt_executed rt = [] ∧ rt_calls rt = []) ∧
  length (App.alerts session) = 1%nat.
Proof.
  intros session. split; [reflexivity|]. split; [|vm_compute; reflexivity].
  refine (proj1 (proj2 (placeholder_is_off_the_path Sample.off_path
                          [(Some [Sample.csv], Some (js "04/10/2025"))]
                          Sample.app_start ∅ eq_refl _))).
  repeat constructor; try discriminate.
Defined.
